(** * The authorization chain and credential codec of [lib/auth.js]

  A shallow embedding of [src/lib/auth.js]: the provider chain
  ([authenticate], [add_user], [allow_access], [allow_publish]), the two
  built-in providers, the signed-token codec ([issue_token],
  [decode_token]), the credential cipher ([aes_encrypt], [aes_decrypt]),
  the principal builders and the three middlewares.

  Conventions of the embedding.
  - A JavaScript string is a [string]; each character stands for the
    UTF-16 code unit with the same code, so the model covers the strings
    whose code units are below 256.
  - A [Buffer] is a list of bytes.
  - A provider calls its callback exactly once, synchronously; what it
    passes is the pair (err, value), the value being of the kind the
    provider interface names (a group list or false for [authenticate],
    a boolean for the others, or nothing).  Providers may keep state of
    their own: every provider call takes and returns a world state.
  - An exception is a [Throw] completion.
  - The runtime the file calls into (crypto, jju, Buffer codecs) is a
    record of functions, [platform]. *)

From Stdlib Require Import ZArith Ascii String List Lia Bool.
From stdpp Require Import base decidable option list strings gmap.

Local Open Scope string_scope.
Local Open Scope list_scope.

(** ** JavaScript strings *)

Module JsString.

(** [StrWhiteSpaceChar] restricted to code units below 256:
    TAB, LF, VT, FF, CR, SP and NBSP. *)
Definition is_white_space (c : ascii) : bool :=
  let n := N_of_ascii c in
  ((9 <=? n) && (n <=? 13) || (n =? 32) || (n =? 160))%N.

Fixpoint trim_start (s : string) : string :=
  match s with
  | String c s' => if is_white_space c then trim_start s' else s
  | EmptyString => EmptyString
  end.

Fixpoint trim_end (s : string) : string :=
  match s with
  | String c s' =>
      match trim_end s' with
      | EmptyString => if is_white_space c then EmptyString else String c EmptyString
      | t => String c t
      end
  | EmptyString => EmptyString
  end.

Definition trim (s : string) : string := trim_end (trim_start s).

(** [s.indexOf(c)] for a one-character needle; [None] stands for -1. *)
Fixpoint indexOf (c : ascii) (s : string) : option nat :=
  match s with
  | EmptyString => None
  | String d s' => if Ascii.eqb c d then Some 0%nat else S <$> indexOf c s'
  end.

(** [s.slice(0, i)] and [s.slice(i)] for [0 <= i]. *)
Fixpoint slice_to (i : nat) (s : string) : string :=
  match i, s with
  | S i', String c s' => String c (slice_to i' s')
  | _, _ => EmptyString
  end.

Fixpoint slice_from (i : nat) (s : string) : string :=
  match i, s with
  | S i', String _ s' => slice_from i' s'
  | _, _ => s
  end.

(** [s.split(c)] for a one-character separator. *)
Fixpoint split (c : ascii) (s : string) : list string :=
  match s with
  | EmptyString => [EmptyString]
  | String d s' =>
      if Ascii.eqb c d then EmptyString :: split c s'
      else match split c s' with
           | t :: ts => String d t :: ts
           | [] => [String d EmptyString]
           end
  end.

(** [s.includes(c)] for a one-character needle. *)
Fixpoint includes (c : ascii) (s : string) : bool :=
  match s with
  | EmptyString => false
  | String d s' => Ascii.eqb c d || includes c s'
  end.

(** [a.join(",")] for an array of strings. *)
Fixpoint join (sep : string) (a : list string) : string :=
  match a with
  | [] => EmptyString
  | [s] => s
  | s :: a' => s ++ sep ++ join sep a'
  end.

End JsString.

(** ** ToNumber on strings, as far as comparing with zero needs it *)

Module ToNumber.

Definition digit (c : ascii) : option Z :=
  let n := N_of_ascii c in
  if ((48 <=? n) && (n <=? 57))%N then Some (Z.of_N n - 48)%Z else None.

(** The longest prefix of decimal digits, and what follows it. *)
Fixpoint take_digits (s : string) : list Z * string :=
  match s with
  | String c s' =>
      match digit c with
      | Some d => let '(ds, rest) := take_digits s' in (d :: ds, rest)
      | None => ([], s)
      end
  | EmptyString => ([], EmptyString)
  end.

Definition digits_value (ds : list Z) : Z :=
  fold_left (fun acc d => 10 * acc + d)%Z ds 0%Z.

(** [ExponentPart], optional: the empty string is exponent 0. *)
Definition parse_exponent (s : string) : option Z :=
  match s with
  | EmptyString => Some 0%Z
  | String c s' =>
      if Ascii.eqb c "e" || Ascii.eqb c "E" then
        let '(sgn, s'') :=
          match s' with
          | String c' t =>
              if Ascii.eqb c' "+" then (1%Z, t)
              else if Ascii.eqb c' "-" then ((-1)%Z, t)
              else (1%Z, s')
          | EmptyString => (1%Z, s')
          end in
        let '(ds, rest) := take_digits s'' in
        match ds, rest with
        | _ :: _, EmptyString => Some (sgn * digits_value ds)%Z
        | _, _ => None
        end
      else None
  end.

(** [StrUnsignedDecimalLiteral] other than [Infinity]: the pair (m, e)
    stands for the mathematical value m * 10^e. *)
Definition parse_decimal (s : string) : option (Z * Z) :=
  let '(ip, r1) := take_digits s in
  let without_dot :=
    match ip with
    | [] => None
    | _ => e ← parse_exponent r1; Some (digits_value ip, e)
    end in
  match r1 with
  | String c r2 =>
      if Ascii.eqb c "." then
        let '(fp, r3) := take_digits r2 in
        match ip, fp with
        | [], [] => None
        | _, _ =>
            e ← parse_exponent r3;
            Some (digits_value (ip ++ fp), e - Z.of_nat (length fp))%Z
        end
      else without_dot
  | EmptyString => without_dot
  end.

(** The Number value of m * 10^e is (plus or minus) 0 when m is 0 or when
    the value is at most 2^-1075, half of the least positive double. *)
Definition rounds_to_zero (m e : Z) : bool :=
  ((m =? 0) || ((e <? 0) && (m * 2 ^ 1075 <=? 10 ^ (- e))))%Z.

Fixpoint all_zero_digits (s : string) : bool :=
  match s with
  | EmptyString => true
  | String c s' => Ascii.eqb c "0" && all_zero_digits s'
  end.

Definition strip_sign (s : string) : string :=
  match s with
  | String c t => if Ascii.eqb c "+" || Ascii.eqb c "-" then t else s
  | EmptyString => s
  end.

Definition is_radix_letter (c : ascii) : bool :=
  Ascii.eqb c "x" || Ascii.eqb c "X" || Ascii.eqb c "b" || Ascii.eqb c "B"
  || Ascii.eqb c "o" || Ascii.eqb c "O".

(** A signed [StrDecimalLiteral] that rounds to 0. *)
Definition decimal_is_zero (s : string) : bool :=
  match parse_decimal (strip_sign s) with
  | Some (m, e) => rounds_to_zero m e
  | None => false
  end.

(** [ToNumber(s) == 0]: white space is trimmed; the empty string is 0; a
    [0x], [0b] or [0o] literal is 0 when it has digits and all are 0; a
    signed decimal literal is 0 when it rounds to 0; everything else
    ([Infinity] included) is not 0. *)
Definition is_zero (s : string) : bool :=
  match JsString.trim s with
  | EmptyString => true
  | String c0 (String c rest) as t =>
      if Ascii.eqb c0 "0" && is_radix_letter c then
        match rest with
        | EmptyString => false
        | _ => all_zero_digits rest
        end
      else decimal_is_zero t
  | t => decimal_is_zero t
  end.

End ToNumber.

(** ** Errors, completions and callbacks *)

(** [Error[status](msg)] of http-errors, the two built-in errors the file
    can run into, and any other error (of the crypto module, say). *)
Inductive js_error :=
| HttpError (status : Z) (msg : string)
| TypeError (msg : string)
| SyntaxError (msg : string)
| OtherError (msg : string).

(** [err.message] *)
Definition message (e : js_error) : string :=
  match e with
  | HttpError _ m => m
  | TypeError m => m
  | SyntaxError m => m
  | OtherError m => m
  end.

(** [err.status]: only the errors of http-errors have one. *)
Definition status (e : js_error) : option Z :=
  match e with
  | HttpError st _ => Some st
  | _ => None
  end.

(** The result of running a piece of code: a value, or a thrown error. *)
Inductive completion (A : Type) :=
| Normal (a : A)
| Throw (e : js_error).
Arguments Normal {A} a.
Arguments Throw {A} e.

#[global] Instance completion_ret : MRet completion := fun A a => Normal a.
#[global] Instance completion_bind : MBind completion :=
  fun A B f m => match m with Normal a => f a | Throw e => Throw e end.

(** [try { body } catch (e) { handler(e) }] *)
Definition try_catch {A} (body : completion A) (handler : js_error -> completion A)
  : completion A :=
  match body with
  | Normal a => Normal a
  | Throw e => handler e
  end.

(** How a node-style callback [cb(err, value)] was invoked by the facade:
    with an error, or with a value. *)
Inductive callback (A : Type) :=
| CbError (e : js_error)
| CbOk (a : A).
Arguments CbError {A} e.
Arguments CbOk {A} a.

(** What a provider passes to its callback: [cb(err, value)]; [None] is a
    missing, null or undefined [err]. *)
Definition cb_args (A : Type) : Type := option js_error * A.

(** ** Values a provider passes *)

(** The [groups] argument of an [authenticate] callback: nothing, [null],
    [false], or an array of group names. *)
Inductive jsgroups :=
| JUndefined
| JNull
| JFalse
| JArray (l : list string).

(** [v != null] *)
Definition not_nullish (v : jsgroups) : bool :=
  match v with
  | JUndefined | JNull => false
  | _ => true
  end.

(** [v == false]: [undefined] and [null] only equal each other; an array
    is converted to a primitive by [join(",")] and that string to a number,
    which is compared with 0. *)
Definition loose_eq_false (v : jsgroups) : bool :=
  match v with
  | JUndefined | JNull => false
  | JFalse => true
  | JArray l => ToNumber.is_zero (JsString.join "," l)
  end.

(** [v || []]: every array is truthy, the empty one too. *)
Definition or_empty (v : jsgroups) : list string :=
  match v with
  | JArray l => l
  | _ => []
  end.

(** The [ok] argument of the other callbacks: a boolean, or nothing. *)
Definition jsok : Type := option bool.

Definition truthy_ok (ok : jsok) : bool :=
  match ok with
  | Some true => true
  | _ => false
  end.

(** ** Principals, packages, configuration *)

Record Principal := {
  name : option string;
  groups : list string;
  real_groups : jsgroups;
  error : option string;
  token : option string;
}.

Definition set_error (msg : string) (user : Principal) : Principal :=
  {| name := name user; groups := groups user; real_groups := real_groups user;
     error := Some msg; token := token user |}.

Definition set_token (tok : string) (user : Principal) : Principal :=
  {| name := name user; groups := groups user; real_groups := real_groups user;
     error := error user; token := Some tok |}.

Definition buildAnonymousUser : Principal :=
  {| name := None;
     groups := ["$all"; "$anonymous"; "@all"; "@anonymous"; "all"; "undefined"; "anonymous"];
     real_groups := JArray [];
     error := None; token := None |}.

Definition authenticatedUser (name : option string) (groups : jsgroups) : Principal :=
  let _groups := or_empty groups ++ ["$all"; "$authenticated"; "@all"; "@authenticated"; "all"] in
  {| name := name;
     groups := _groups;
     real_groups := groups;
     error := None; token := None |}.

Inductive Action := access | publish.

Definition action_name (action : Action) : string :=
  match action with
  | access => "access"
  | publish => "publish"
  end.

(** What [config.get_package_spec] returns. *)
Record PackageSpec := {
  spec_access : list string;
  spec_publish : list string;
}.

(** [Object.assign({name: package_name}, spec)] *)
Record Package := {
  pkg_name : string;
  pkg_access : list string;
  pkg_publish : list string;
}.

(** [pkg[action]] *)
Definition acl (action : Action) (pkg : Package) : list string :=
  match action with
  | access => pkg_access pkg
  | publish => pkg_publish pkg
  end.

(** [config.users[user]] *)
Module UserEntry.
Record t := { password : string }.
End UserEntry.

(** What the file reads of [config].  [users] is the table of the
    configured users; it may be missing.  It is a plain object: beside
    its own entries, [users[name]] finds what every object inherits (see
    [inherited] below). *)
Module Config.
Record t := {
  users : option (gmap string UserEntry.t);
  get_package_spec : string -> PackageSpec;
  secret : string;
}.
End Config.

(** ** Providers *)

Module Plugin.
Section Plugin.
Context {S : Type}.
Record t := {
  authenticate : option (string -> string -> S -> cb_args jsgroups * S);
  adduser : option (string -> string -> S -> cb_args jsok * S);
  add_user : option (string -> string -> S -> cb_args jsok * S);
  allow_access : option (Principal -> Package -> S -> cb_args jsok * S);
  allow_publish : option (Principal -> Package -> S -> cb_args jsok * S);
}.
End Plugin.
Arguments t S : clear implicits.
End Plugin.

(** ** Token payloads and the runtime *)

Definition bytes : Type := list Byte.byte.

Module Payload.
(** [{u: ..., g: ..., t: ...}], as [issue_token] writes it, with a number
    for [t]; an [undefined] field is left out by [jju.stringify] and is
    [None] here. *)
Record payload := {
  u : option string;
  g : option (list string);
  t : Z;
}.
End Payload.

(** The functions of node and jju that the file calls. *)
Record platform := {
  (** [Crypto.createHash('sha1').update(s).digest('hex')] *)
  sha1_hex : string -> string;
  (** [Crypto.createHmac('sha256', secret).update(data).digest()] *)
  hmac_sha256 : string -> bytes -> bytes;
  (** [Crypto.createHash('sha512').update(b).digest('hex')] *)
  sha512_hex : bytes -> string;
  (** [new Buffer(s, 'base64')] and [b.toString('base64')] *)
  base64_decode : string -> bytes;
  base64_encode : bytes -> string;
  (** [new Buffer(s, 'utf8')] and [b.toString('utf8')] *)
  utf8_encode : string -> bytes;
  utf8_decode : bytes -> string;
  (** [jju.stringify(o, {indent: false})] and [jju.parse(s)] *)
  jju_stringify : Payload.payload -> string;
  jju_parse : string -> completion Payload.payload;
  (** [Crypto.createCipher], [Crypto.createDecipher], [c.update(buf)]
      (which also advances the cipher object) and [c.final()] *)
  cipher : Type;
  createCipher : string -> string -> completion cipher;
  createDecipher : string -> string -> completion cipher;
  cipher_update : cipher -> bytes -> completion (bytes * cipher);
  cipher_final : cipher -> completion bytes;
}.

(** [~~x]: ToInt32 of an integer. *)
Definition to_int32 (x : Z) : Z :=
  ((x + 2 ^ 31) mod 2 ^ 32 - 2 ^ 31)%Z.

(** [~~(Date.now()/1000)], the clock reading [now] being in milliseconds. *)
Definition now_seconds (now : Z) : Z := to_int32 (now ÷ 1000)%Z.

(** ** The facade *)

Module Self.
Section Self.
Context {S : Type}.
Record t := {
  config : Config.t;
  secret : string;
  plugins : list (Plugin.t S);
}.
End Self.
Arguments t S : clear implicits.
End Self.

(** The property names of [Object.prototype].  On a plain object [o]
    and such a name, [o[name]] is the inherited function (for
    [__proto__], the prototype itself) unless [o] has an entry of its
    own: a truthy value that is not null and has no [password]. *)
Definition object_prototype_names : list string :=
  ["constructor"; "__defineGetter__"; "__defineSetter__"; "hasOwnProperty";
   "__lookupGetter__"; "__lookupSetter__"; "isPrototypeOf"; "propertyIsEnumerable";
   "toString"; "valueOf"; "__proto__"; "toLocaleString"].

Definition inherited (name : string) : bool :=
  bool_decide (name ∈ object_prototype_names).

(** [users[user]] is truthy: an entry of the table, or an inherited
    property. *)
Definition truthy_entry (users : gmap string UserEntry.t) (user : string) : bool :=
  match users !! user with
  | Some _ => true
  | None => inherited user
  end.

Section Model.
Context {S : Type} (P : platform).

(** The provider that [Auth] puts first: the users of the configuration.
    In [authenticate] an inherited property passes the test [!= null]
    but has no [password], so the comparison with the digest fails as
    it does without an entry. *)
Definition static_plugin (config : Config.t) : Plugin.t S :=
  {| Plugin.authenticate := Some (fun user password st =>
       match Config.users config with
       | Some users =>
           match users !! user with
           | Some entry =>
               if String.eqb (sha1_hex P password) (UserEntry.password entry)
               then ((None, JArray [user]), st)
               else ((None, JUndefined), st)
           | None => ((None, JUndefined), st)
           end
       | None => ((None, JUndefined), st)
       end);
     Plugin.adduser := Some (fun user password st =>
       match Config.users config with
       | Some users =>
           if truthy_entry users user
           then ((Some (HttpError 403 "this user already exists"), None), st)
           else ((None, None), st)
       | None => ((None, None), st)
       end);
     Plugin.add_user := None;
     Plugin.allow_access := None;
     Plugin.allow_publish := None |}.

(** [pkg[action].reduce(...)]: does some name of the list occur in
    [user.groups]? *)
Definition acl_matches (user : Principal) (names : list string) : bool :=
  fold_left (fun prev curr => if bool_decide (curr ∈ groups user) then true else prev)
            names false.

Definition allow_action (action : Action)
  : Principal -> Package -> S -> cb_args jsok * S :=
  fun user pkg st =>
    let ok := acl_matches user (acl action pkg) in
    if ok then ((None, Some true), st)
    else
      match name user with
      | Some (String _ _ as n) =>
          ((Some (HttpError 403 ("user " ++ n ++ " is not allowed to "
                                   ++ action_name action ++ " package " ++ pkg_name pkg)),
            None), st)
      | _ =>
          ((Some (HttpError 403 ("unregistered users are not allowed to "
                                   ++ action_name action ++ " package " ++ pkg_name pkg)),
            None), st)
      end.

(** The provider that [Auth] puts last. *)
Definition deny_all_plugin : Plugin.t S :=
  {| Plugin.authenticate := Some (fun user password st =>
       ((Some (HttpError 403 "bad username/password, access denied"), JUndefined), st));
     Plugin.adduser := None;
     Plugin.add_user := Some (fun user password st =>
       ((Some (HttpError 409 "registration is disabled"), None), st));
     Plugin.allow_access := Some (allow_action access);
     Plugin.allow_publish := Some (allow_action publish) |}.

(** [Auth(config)]; [loaded] is what [load_plugins] returns. *)
Definition Auth (config : Config.t) (loaded : list (Plugin.t S)) : Self.t S :=
  {| Self.config := config;
     Self.secret := Config.secret config;
     Self.plugins := static_plugin config :: loaded ++ [deny_all_plugin] |}.

End Model.

(** ** The chain walks *)

Section Chain.
Context {S : Type}.

(** [plugins.shift()] on an empty array is [undefined], and reading a
    property of it throws. *)
Definition shift_undefined : js_error :=
  TypeError "Cannot read property of undefined".

(** The [next] of [Auth.prototype.authenticate], on what is left of the
    copy of [this.plugins]. *)
Fixpoint authenticate_next (plugins : list (Plugin.t S)) (user password : string) (st : S)
  : completion (callback Principal) * S :=
  match plugins with
  | [] => (Throw shift_undefined, st)
  | p :: plugins =>
      match Plugin.authenticate p with
      | None => authenticate_next plugins user password st
      | Some p_authenticate =>
          let '((err, groups), st) := p_authenticate user password st in
          match err with
          | Some err => (Normal (CbError err), st)
          | None =>
              if not_nullish groups && negb (loose_eq_false groups)
              then (Normal (CbOk (authenticatedUser (Some user) groups)), st)
              else authenticate_next plugins user password st
          end
      end
  end.

Definition authenticate (self : Self.t S) (user password : string) (st : S)
  : completion (callback Principal) * S :=
  authenticate_next (Self.plugins self) user password st.

(** [p[n]] after [n] has been chosen: [adduser] when it is a function,
    [add_user] otherwise. *)
Definition adduser_method (p : Plugin.t S)
  : option (string -> string -> S -> cb_args jsok * S) :=
  match Plugin.adduser p with
  | Some f => Some f
  | None => Plugin.add_user p
  end.

Fixpoint add_user_next (self : Self.t S) (plugins : list (Plugin.t S))
    (user password : string) (st : S) : completion (callback Principal) * S :=
  match plugins with
  | [] => (Throw shift_undefined, st)
  | p :: plugins =>
      match adduser_method p with
      | None => add_user_next self plugins user password st
      | Some p_n =>
          let '((err, ok), st) := p_n user password st in
          match err with
          | Some err => (Normal (CbError err), st)
          | None =>
              if truthy_ok ok
              then authenticate self user password st
              else add_user_next self plugins user password st
          end
      end
  end.

Definition add_user (self : Self.t S) (user password : string) (st : S)
  : completion (callback Principal) * S :=
  add_user_next self (Self.plugins self) user password st.

(** [Object.assign({name: package_name}, this.config.get_package_spec(package_name))] *)
Definition package_of (self : Self.t S) (package_name : string) : Package :=
  let spec := Config.get_package_spec (Self.config self) package_name in
  {| pkg_name := package_name;
     pkg_access := spec_access spec;
     pkg_publish := spec_publish spec |}.

Fixpoint allow_access_next (plugins : list (Plugin.t S)) (user : Principal) (pkg : Package)
    (st : S) : completion (callback bool) * S :=
  match plugins with
  | [] => (Throw shift_undefined, st)
  | p :: plugins =>
      match Plugin.allow_access p with
      | None => allow_access_next plugins user pkg st
      | Some p_allow_access =>
          let '((err, ok), st) := p_allow_access user pkg st in
          match err with
          | Some err => (Normal (CbError err), st)
          | None =>
              if truthy_ok ok
              then (Normal (CbOk true), st)
              else allow_access_next plugins user pkg st
          end
      end
  end.

Definition allow_access (self : Self.t S) (package_name : string) (user : Principal) (st : S)
  : completion (callback bool) * S :=
  allow_access_next (Self.plugins self) user (package_of self package_name) st.

Fixpoint allow_publish_next (plugins : list (Plugin.t S)) (user : Principal) (pkg : Package)
    (st : S) : completion (callback bool) * S :=
  match plugins with
  | [] => (Throw shift_undefined, st)
  | p :: plugins =>
      match Plugin.allow_publish p with
      | None => allow_publish_next plugins user pkg st
      | Some p_allow_publish =>
          let '((err, ok), st) := p_allow_publish user pkg st in
          match err with
          | Some err => (Normal (CbError err), st)
          | None =>
              if truthy_ok ok
              then (Normal (CbOk true), st)
              else allow_publish_next plugins user pkg st
          end
      end
  end.

Definition allow_publish (self : Self.t S) (package_name : string) (user : Principal) (st : S)
  : completion (callback bool) * S :=
  allow_publish_next (Self.plugins self) user (package_of self package_name) st.

End Chain.

(** ** The token codec and the cipher *)

Section Codec.
Context (P : platform).

(** The [g] of the payload: [user.real_groups] when it is truthy and its
    length is not 0, left out otherwise. *)
Definition payload_groups (real_groups : jsgroups) : option (list string) :=
  match real_groups with
  | JArray l => if (length l =? 0)%nat then None else Some l
  | _ => None
  end.

(** The object that [issue_token] serialises. *)
Definition token_payload (user : Principal) (now : Z) : Payload.payload :=
  {| Payload.u := name user;
     Payload.g := payload_groups (real_groups user);
     Payload.t := now_seconds now |}.

Definition issue_token (secret : string) (user : Principal) (now : Z) : string :=
  let data := jju_stringify P (token_payload user now) in
  let data := utf8_encode P data in
  let mac := hmac_sha256 P secret data in
  base64_encode P (data ++ mac).

(** [expire_time || 24*60*60]; a missing argument is [None]. *)
Definition expire_or_default (expire_time : option Z) : Z :=
  match expire_time with
  | Some e => if (e =? 0)%Z then 24 * 60 * 60 else e
  | None => 24 * 60 * 60
  end%Z.

Definition decode_token (secret : string) (str : string) (expire_time : option Z) (now : Z)
  : completion Payload.payload :=
  let buf := base64_decode P str in
  if (length buf <=? 32)%nat then Throw (HttpError 401 "invalid token")
  else
    let data := take (length buf - 32) buf in
    let their_mac := drop (length buf - 32) buf in
    let good_mac := hmac_sha256 P secret data in
    let their_mac := sha512_hex P their_mac in
    let good_mac := sha512_hex P good_mac in
    if negb (String.eqb their_mac good_mac) then Throw (HttpError 401 "bad signature")
    else
      let expire_time := expire_or_default expire_time in
      data ← jju_parse P (utf8_decode P data);
      if (Z.abs (Payload.t data - now_seconds now) >? expire_time)%Z
      then Throw (HttpError 401 "token expired")
      else Normal data.

(** [user.g] of a decoded payload: the array, or [undefined]. *)
Definition payload_field_g (user : Payload.payload) : jsgroups :=
  match Payload.g user with
  | Some l => JArray l
  | None => JUndefined
  end.

Definition aes_encrypt (secret : string) (buf : bytes) : completion bytes :=
  c ← createCipher P "aes192" secret;
  '(b1, c) ← cipher_update P c buf;
  b2 ← cipher_final P c;
  Normal (b1 ++ b2).

(** The [try] block of [aes_decrypt]. *)
Definition aes_decrypt_body (secret : string) (buf : bytes) : completion bytes :=
  c ← createDecipher P "aes192" secret;
  '(b1, c) ← cipher_update P c buf;
  b2 ← cipher_final P c;
  Normal (b1 ++ b2).

Definition aes_decrypt (secret : string) (buf : bytes) : completion bytes :=
  try_catch (aes_decrypt_body secret buf) (fun _ => Normal []).

End Codec.

(** ** The middlewares *)

(** What the middlewares read and write of [req]. *)
Record Request := {
  remote_user : option Principal;
  (** [req.headers.authorization] *)
  authorization : option string;
  (** [req.cookies.get('token')] *)
  cookies_token : option string;
  (** set by [req.pause()], cleared by [req.resume()] *)
  paused : bool;
}.

Definition pause (req : Request) : Request :=
  {| remote_user := remote_user req; authorization := authorization req;
     cookies_token := cookies_token req; paused := true |}.

Definition resume (req : Request) : Request :=
  {| remote_user := remote_user req; authorization := authorization req;
     cookies_token := cookies_token req; paused := false |}.

Definition set_remote_user (user : Principal) (req : Request) : Request :=
  {| remote_user := Some user; authorization := authorization req;
     cookies_token := cookies_token req; paused := paused req |}.

(** [req.remote_user != null && req.remote_user.name !== undefined] *)
Definition has_named_user (req : Request) : bool :=
  match remote_user req with
  | Some user => bool_decide (name user ≠ None)
  | None => false
  end.

(** How a middleware ends: it throws, or it calls [_next] with or without
    an error, leaving the request as given. *)
Definition continued : Type := Request * option js_error.

(** The [next] of [basic_middleware]. *)
Definition basic_next (req : Request) (err : option js_error) : completion continued :=
  let req := resume req in
  match err with
  | Some err =>
      match remote_user req with
      | Some user => Normal (set_remote_user (set_error (message err) user) req, None)
      | None => Throw (TypeError "Cannot set property 'error' of undefined")
      end
  | None => Normal (req, None)
  end.

(** The [next] of [bearer_middleware]: [_next.apply(null, arguments)]. *)
Definition bearer_next (req : Request) (_err : option js_error) : completion continued :=
  let req := resume req in
  Normal (req, _err).

(** The [next] of [cookie_middleware]: [_next()]. *)
Definition cookie_next (req : Request) (_err : option js_error) : completion continued :=
  let req := resume req in
  Normal (req, None).

Section Middleware.
Context {S : Type} (P : platform).

(** From [credentials.indexOf(':')] to the end of [basic_middleware] and of
    [cookie_middleware]: the two bodies are the same but for their [next]. *)
Definition authenticate_credentials
    (next : Request -> option js_error -> completion continued)
    (self : Self.t S) (req : Request) (credentials : string) (st : S)
  : completion continued * S :=
  match JsString.indexOf ":" credentials with
  | None => (next req None, st)
  | Some index =>
      let user := JsString.slice_to index credentials in
      let pass := JsString.slice_from (index + 1) credentials in
      match authenticate self user pass st with
      | (Throw e, st) => (Throw e, st)
      | (Normal (CbOk user), st) => (next (set_remote_user user req) None, st)
      | (Normal (CbError err), st) =>
          (next (set_remote_user buildAnonymousUser req) (Some err), st)
      end
  end.

Definition basic_middleware (self : Self.t S) (req : Request) (st : S)
  : completion continued * S :=
  let next := basic_next in
  let req := pause req in
  if has_named_user req then (next req None, st)
  else
    let req := set_remote_user buildAnonymousUser req in
    match authorization req with
    | None => (next req None, st)
    | Some authorization =>
        match JsString.split " " authorization with
        | [scheme; value] =>
            if String.eqb scheme "Basic" then
              let credentials := utf8_decode P (base64_decode P value) in
              authenticate_credentials next self req credentials st
            else if String.eqb scheme "Bearer" then
              match aes_decrypt P (Self.secret self) (base64_decode P value) with
              | Throw e => (Throw e, st)
              | Normal plain =>
                  let credentials := utf8_decode P plain in
                  if String.eqb credentials "" then (next req None, st)
                  else authenticate_credentials next self req credentials st
              end
            else (next req None, st)
        | _ => (next req (Some (HttpError 400 "bad authorization header")), st)
        end
    end.

Definition bearer_middleware (self : Self.t S) (req : Request) (now : Z)
  : completion continued :=
  let next := bearer_next in
  let req := pause req in
  if has_named_user req then next req None
  else
    let req := set_remote_user buildAnonymousUser req in
    match authorization req with
    | None => next req None
    | Some authorization =>
        match JsString.split " " authorization with
        | [scheme; token] =>
            if negb (String.eqb scheme "Bearer") then next req None
            else
              match decode_token P (Self.secret self) token None now with
              | Throw err => next req (Some err)
              | Normal user =>
                  let remote_user :=
                    authenticatedUser (Payload.u user) (payload_field_g user) in
                  let remote_user := set_token token remote_user in
                  next (set_remote_user remote_user req) None
              end
        | _ => next req (Some (HttpError 400 "bad authorization header"))
        end
    end.

Definition cookie_middleware (self : Self.t S) (req : Request) (st : S)
  : completion continued * S :=
  let next := cookie_next in
  let req := pause req in
  if has_named_user req then (next req None, st)
  else
    let req := set_remote_user buildAnonymousUser req in
    match cookies_token req with
    | None => (next req None, st)
    | Some token =>
        match aes_decrypt P (Self.secret self) (base64_decode P token) with
        | Throw e => (Throw e, st)
        | Normal plain =>
            let credentials := utf8_decode P plain in
            if String.eqb credentials "" then (next req None, st)
            else authenticate_credentials next self req credentials st
        end
    end.

End Middleware.

(** ** The walk, once *)

(** The four [next] functions are one loop over the copy of the provider
    list.  [walk] is that loop with the method looked up, the test on the
    value and the action on a passed test as parameters; [short_circuits]
    is the rule the loop follows, stated for a provider [p] reached after
    the providers [pre] have all been passed over. *)
Section Walk.
Context {S X Y V R : Type}.
Variable method : Plugin.t S -> option (X -> Y -> S -> cb_args V * S).
Variable test : V -> bool.
Variable finish : X -> Y -> V -> S -> completion (callback R) * S.

Fixpoint walk (plugins : list (Plugin.t S)) (x : X) (y : Y) (st : S)
  : completion (callback R) * S :=
  match plugins with
  | [] => (Throw shift_undefined, st)
  | p :: plugins =>
      match method p with
      | None => walk plugins x y st
      | Some f =>
          let '((err, v), st) := f x y st in
          match err with
          | Some err => (Normal (CbError err), st)
          | None => if test v then finish x y v st else walk plugins x y st
          end
      end
  end.

Variable empty : V -> bool.

(** [passed_over x y pre st st']: from state [st], every provider of [pre]
    lacks the method or calls back without an error and with an empty
    value; the last of these calls leaves the state [st']. *)
Inductive passed_over (x : X) (y : Y) : list (Plugin.t S) -> S -> S -> Prop :=
| passed_nil st : passed_over x y [] st st
| passed_skip p pre st st' :
    method p = None ->
    passed_over x y pre st st' ->
    passed_over x y (p :: pre) st st'
| passed_empty p pre f v st st1 st' :
    method p = Some f ->
    f x y st = ((None, v), st1) ->
    empty v = true ->
    passed_over x y pre st1 st' ->
    passed_over x y (p :: pre) st st'.

Variable affirmative : V -> bool.
Variable next : list (Plugin.t S) -> X -> Y -> S -> completion (callback R) * S.

Definition short_circuits : Prop :=
  forall (pre : list (Plugin.t S)) (p : Plugin.t S) (post : list (Plugin.t S))
         (x : X) (y : Y) (st st1 : S),
    passed_over x y pre st st1 ->
    (* a provider without the method is skipped *)
    (method p = None ->
     next (pre ++ p :: post) x y st = next post x y st1)
    /\
    (* an error stops the walk and is handed to the caller *)
    (forall f err v st2,
        method p = Some f -> f x y st1 = ((Some err, v), st2) ->
        next (pre ++ p :: post) x y st = (Normal (CbError err), st2))
    /\
    (* an affirmative value stops the walk *)
    (forall f v st2,
        method p = Some f -> f x y st1 = ((None, v), st2) -> affirmative v = true ->
        next (pre ++ p :: post) x y st = finish x y v st2)
    /\
    (* an empty value moves the walk to the next provider *)
    (forall f v st2,
        method p = Some f -> f x y st1 = ((None, v), st2) -> empty v = true ->
        next (pre ++ p :: post) x y st = next post x y st2).

End Walk.

(** The values the chain takes for "no verdict". *)
Definition empty_groups (groups : jsgroups) : bool :=
  match groups with
  | JUndefined | JNull | JFalse | JArray [] => true
  | JArray (_ :: _) => false
  end.

Definition empty_ok (ok : jsok) : bool :=
  match ok with
  | None | Some false => true
  | Some true => false
  end.

(** A non-empty group list, as the claim reads "affirmative". *)
Definition non_empty_groups (groups : jsgroups) : bool :=
  match groups with
  | JArray (_ :: _) => true
  | _ => false
  end.

(** A group list that [authenticate] takes for a verdict: an array whose
    [join(",")] does not convert to the number 0. *)
Definition accepted_groups (groups : jsgroups) : bool :=
  match groups with
  | JArray l => negb (ToNumber.is_zero (JsString.join "," l))
  | _ => false
  end.

(** What each operation does on an affirmative value. *)
Definition authenticate_finish {S} (user password : string) (groups : jsgroups) (st : S)
  : completion (callback Principal) * S :=
  (Normal (CbOk (authenticatedUser (Some user) groups)), st).

Definition add_user_finish {S} (self : Self.t S) (user password : string) (ok : jsok) (st : S)
  : completion (callback Principal) * S :=
  authenticate self user password st.

Definition allow_finish {S} (user : Principal) (pkg : Package) (ok : jsok) (st : S)
  : completion (callback bool) * S :=
  (Normal (CbOk true), st).

(** [allow_access] and [allow_publish], by the action they decide. *)
Definition allow_method {S} (action : Action)
  : Plugin.t S -> option (Principal -> Package -> S -> cb_args jsok * S) :=
  match action with
  | access => Plugin.allow_access
  | publish => Plugin.allow_publish
  end.

Definition allow {S} (self : Self.t S) (action : Action) (package_name : string)
    (user : Principal) (st : S) : completion (callback bool) * S :=
  match action with
  | access => allow_access self package_name user st
  | publish => allow_publish self package_name user st
  end.

(** The callback of an operation is invoked: the walk does not run off
    the end of the provider list. *)
Definition answers {S R} (out : completion (callback R) * S) : Prop :=
  exists r, out.1 = Normal r.

(** Some name of the list [names] occurs in [user.groups]. *)
Definition intersects (names : list string) (user : Principal) : Prop :=
  exists group, group ∈ names /\ group ∈ groups user.

(** The messages of the two refusals of [allow_action]. *)
Definition not_allowed_user (n : string) (action : Action) (package_name : string) : js_error :=
  HttpError 403 ("user " ++ n ++ " is not allowed to " ++ action_name action
                   ++ " package " ++ package_name).

Definition not_allowed_unregistered (action : Action) (package_name : string) : js_error :=
  HttpError 403 ("unregistered users are not allowed to " ++ action_name action
                   ++ " package " ++ package_name).

(** ** A stand-in runtime *)

(** A small runtime on which the closed examples run: the codecs are
    conversions between strings and bytes, the MAC is a keyed 32-byte
    checksum, jju knows two payloads, and deciphering an empty buffer
    fails the way a bad padding does. *)
Module TestDouble.

#[global] Instance payload_eq_dec : EqDecision Payload.payload.
Proof. solve_decision. Defined.

Definition sum_bytes (l : bytes) : N :=
  fold_right (fun b acc => (Byte.to_N b + acc)%N) 0%N l.

Definition checksum (secret : string) (data : bytes) : bytes :=
  let n := ((sum_bytes (list_byte_of_string secret) + sum_bytes data) mod 256)%N in
  replicate 32 (default Byte.x00 (Byte.of_N n)).

Definition carol_dev : Payload.payload :=
  {| Payload.u := Some "carol"; Payload.g := Some ["dev"]; Payload.t := 1700000000 |}.

Definition carol_alone : Payload.payload :=
  {| Payload.u := Some "carol"; Payload.g := None; Payload.t := 1700000000 |}.

Definition stringify (o : Payload.payload) : string :=
  if decide (o = carol_dev) then "{u:'carol',g:['dev'],t:1700000000}"
  else if decide (o = carol_alone) then "{u:'carol',t:1700000000}"
  else "{}".

Definition parse (s : string) : completion Payload.payload :=
  if String.eqb s "{u:'carol',g:['dev'],t:1700000000}" then Normal carol_dev
  else if String.eqb s "{u:'carol',t:1700000000}" then Normal carol_alone
  else Throw (SyntaxError "Unexpected token").

Definition update (c : bool * nat) (buf : bytes) : completion (bytes * (bool * nat)) :=
  Normal (buf, (c.1, (c.2 + length buf)%nat)).

Definition final (c : bool * nat) : completion bytes :=
  if c.1 && (c.2 =? 0)%nat then Throw (OtherError "bad decrypt") else Normal [].

Definition runtime : platform :=
  {| sha1_hex := fun s => ("sha1:" ++ s)%string;
     hmac_sha256 := checksum;
     sha512_hex := string_of_list_byte;
     base64_decode := list_byte_of_string;
     base64_encode := string_of_list_byte;
     utf8_encode := list_byte_of_string;
     utf8_decode := string_of_list_byte;
     jju_stringify := stringify;
     jju_parse := parse;
     cipher := bool * nat;
     createCipher := fun _ _ => Normal (false, 0%nat);
     createDecipher := fun _ _ => Normal (true, 0%nat);
     cipher_update := update;
     cipher_final := final |}.

(** A configuration with one user, and the facade over it with no loaded
    provider. *)
Definition config : Config.t :=
  {| Config.users := Some {[ "alice" := {| UserEntry.password := "sha1:pw" |} ]};
     Config.get_package_spec := fun package_name =>
       if String.eqb package_name "public"
       then {| spec_access := ["$all"]; spec_publish := ["$authenticated"] |}
       else {| spec_access := ["dev"]; spec_publish := ["alice"] |};
     Config.secret := "s3cret" |}.

Definition self : Self.t unit := Auth runtime config [].

(** A provider that registers whoever asks and does nothing else. *)
Definition registrar : Plugin.t unit :=
  {| Plugin.authenticate := None;
     Plugin.adduser := Some (fun _ _ st => ((None, Some true), st));
     Plugin.add_user := None;
     Plugin.allow_access := None;
     Plugin.allow_publish := None |}.

(** A provider that knows every user and puts each in the one group
    named by [group]. *)
Definition one_group (group : string) : Plugin.t unit :=
  {| Plugin.authenticate := Some (fun _ _ st => ((None, JArray [group]), st));
     Plugin.adduser := None;
     Plugin.add_user := None;
     Plugin.allow_access := None;
     Plugin.allow_publish := None |}.

(** A provider that lets everyone read and publish everything. *)
Definition allow_everything : Plugin.t unit :=
  {| Plugin.authenticate := None;
     Plugin.adduser := None;
     Plugin.add_user := None;
     Plugin.allow_access := Some (fun _ _ st => ((None, Some true), st));
     Plugin.allow_publish := Some (fun _ _ st => ((None, Some true), st)) |}.

(** A user in no group that [config] names, and one whose name is the
    empty string. *)
Definition mallory : Principal := authenticatedUser (Some "mallory") (JArray ["mallory"]).

Definition nameless : Principal := authenticatedUser (Some "") (JArray ["staff"]).

(** The facade over [config] with the providers [loaded]. *)
Definition self_with (loaded : list (Plugin.t unit)) : Self.t unit :=
  Auth runtime config loaded.

End TestDouble.

(** ** Vocabulary of the further properties *)

(** The test of the static provider's [authenticate]: the table has the
    user, with the SHA-1 digest of the password. *)
Definition static_matches (P : platform) (config : Config.t) (user password : string) : bool :=
  match Config.users config with
  | Some users =>
      match users !! user with
      | Some entry => String.eqb (sha1_hex P password) (UserEntry.password entry)
      | None => false
      end
  | None => false
  end.

(** The test of the static provider's [adduser],
    [config.users && config.users[user]]: there is a table, and it has
    an entry for the user or the name is one that every object
    inherits. *)
Definition static_knows (config : Config.t) (user : string) : bool :=
  match Config.users config with
  | Some users => truthy_entry users user
  | None => false
  end.

(** How often the character [c] occurs in [s]. *)
Fixpoint occurrences (c : ascii) (s : string) : nat :=
  match s with
  | EmptyString => 0
  | String d s' => (if Ascii.eqb c d then 1 else 0) + occurrences c s'
  end.

(** The request fields a middleware only reads. *)
Definition same_credentials (req req' : Request) : Prop :=
  authorization req' = authorization req /\ cookies_token req' = cookies_token req.

(** The five markers of [authenticatedUser]. *)
Definition authenticated_markers : list string :=
  ["$all"; "$authenticated"; "@all"; "@authenticated"; "all"].

(** More fixtures for the closed examples. *)
Module Fixtures.

(** A provider that keeps the registered users in its state, the way a
    password file does: [adduser] adds the pair, [authenticate] looks it
    up and puts the user in the group users. *)
Definition registry : Plugin.t (list (string * string)) :=
  {| Plugin.authenticate := Some (fun user password st =>
       if bool_decide ((user, password) ∈ st)
       then ((None, JArray ["users"]), st)
       else ((None, JFalse), st));
     Plugin.adduser := Some (fun user password st =>
       ((None, Some true), (user, password) :: st));
     Plugin.add_user := None;
     Plugin.allow_access := None;
     Plugin.allow_publish := None |}.

Definition fresh (header : option string) (cookie : option string) : Request :=
  {| remote_user := None; authorization := header; cookies_token := cookie;
     paused := false |}.

End Fixtures.

(** * Properties *)

Example is_zero_examples :
  map ToNumber.is_zero
    ["0"; ""; "  "; "0.0"; "-0"; "0x00"; "00"; ".0"; "0e7"; "1e-400"; "dev";
     "1"; "a,b"; "0,0"; "0x"; "Infinity"; "1e-300"; "."; "+-0"; "0 0"]
  = [true; true; true; true; true; true; true; true; true; true; false;
     false; false; false; false; false; false; false; false; false].
Proof. vm_compute. reflexivity. Qed.

(** ** A string with a comma is not a number *)

Section CommaFacts.
Import JsString ToNumber.

Lemma includes_app (c : ascii) (s1 s2 : string) :
  includes c (s1 ++ s2) = includes c s1 || includes c s2.
Proof.
  induction s1 as [|d s1 IH]; simpl; [reflexivity|].
  rewrite IH. apply orb_assoc.
Qed.

Lemma includes_comma_cons (d : ascii) (s : string) :
  includes "," (String d s) = true -> d = ","%char \/ includes "," s = true.
Proof.
  change (includes "," (String d s)) with (Ascii.eqb "," d || includes "," s).
  destruct (Ascii.eqb_spec "," d) as [<-|_]; simpl; auto.
Qed.

Lemma trim_start_comma (s : string) :
  includes "," s = true -> includes "," (trim_start s) = true.
Proof.
  induction s as [|d s IH]; [discriminate|].
  intros H. destruct (includes_comma_cons _ _ H) as [->|Hs]; [exact H|].
  simpl. destruct (is_white_space d); [exact (IH Hs)|exact H].
Qed.

Lemma trim_end_comma (s : string) :
  includes "," s = true -> includes "," (trim_end s) = true.
Proof.
  induction s as [|d s IH]; [discriminate|].
  intros H. simpl.
  destruct (includes_comma_cons _ _ H) as [->|Hs].
  - destruct (trim_end s); reflexivity.
  - specialize (IH Hs). destruct (trim_end s) as [|a t]; [discriminate IH|].
    change (includes "," (String d (String a t)))
      with (Ascii.eqb "," d || includes "," (String a t)).
    rewrite IH. apply orb_true_r.
Qed.

Lemma take_digits_comma (s : string) :
  includes "," s = true -> includes "," (take_digits s).2 = true.
Proof.
  induction s as [|d s IH]; [discriminate|].
  intros H. simpl. destruct (digit d) eqn:Hd; [|exact H].
  destruct (includes_comma_cons _ _ H) as [->|Hs]; [discriminate Hd|].
  specialize (IH Hs). destruct (take_digits s) as [ds rest]. exact IH.
Qed.

Lemma parse_exponent_comma (s : string) :
  includes "," s = true -> parse_exponent s = None.
Proof.
  destruct s as [|c s]; [discriminate|].
  intros H. unfold parse_exponent.
  destruct (Ascii.eqb c "e" || Ascii.eqb c "E") eqn:He; [|reflexivity].
  assert (Hs : includes "," s = true).
  { destruct (includes_comma_cons _ _ H) as [->|Hs]; [discriminate He|exact Hs]. }
  assert (Hrest : forall sgn s'', includes "," s'' = true ->
            (let '(ds, rest) := take_digits s'' in
             match ds, rest with
             | _ :: _, EmptyString => Some (sgn * digits_value ds)%Z
             | _, _ => None
             end) = None).
  { intros sgn s'' H''. pose proof (take_digits_comma s'' H'') as Hd.
    destruct (take_digits s'') as [ds rest]. simpl in Hd.
    destruct ds; [reflexivity|]. destruct rest; [discriminate Hd|reflexivity]. }
  destruct s as [|c' t]; [discriminate Hs|].
  destruct (Ascii.eqb_spec c' "+") as [->|_]; [apply Hrest; exact Hs|].
  destruct (Ascii.eqb_spec c' "-") as [->|_]; apply Hrest; exact Hs.
Qed.

Lemma parse_decimal_comma (s : string) :
  includes "," s = true -> parse_decimal s = None.
Proof.
  intros H. unfold parse_decimal.
  pose proof (take_digits_comma s H) as H1.
  destruct (take_digits s) as [ip r1]. simpl in H1.
  destruct r1 as [|c r2]; [discriminate H1|].
  destruct (Ascii.eqb_spec c ".") as [->|_].
  - assert (H2 : includes "," r2 = true) by exact H1.
    pose proof (take_digits_comma r2 H2) as H3.
    destruct (take_digits r2) as [fp r3]. simpl in H3.
    rewrite (parse_exponent_comma r3 H3).
    destruct ip, fp; reflexivity.
  - rewrite (parse_exponent_comma _ H1). destruct ip; reflexivity.
Qed.

Lemma strip_sign_comma (s : string) :
  includes "," s = true -> includes "," (strip_sign s) = true.
Proof.
  destruct s as [|c t]; [discriminate|]. intros H. unfold strip_sign.
  destruct (Ascii.eqb c "+" || Ascii.eqb c "-") eqn:Hc; [|exact H].
  destruct (includes_comma_cons _ _ H) as [->|Ht]; [discriminate Hc|exact Ht].
Qed.

Lemma decimal_is_zero_comma (s : string) :
  includes "," s = true -> decimal_is_zero s = false.
Proof.
  intros H. unfold decimal_is_zero.
  rewrite (parse_decimal_comma _ (strip_sign_comma s H)). reflexivity.
Qed.

Lemma all_zero_digits_comma (s : string) :
  includes "," s = true -> all_zero_digits s = false.
Proof.
  induction s as [|d s IH]; [discriminate|].
  intros H. simpl. destruct (includes_comma_cons _ _ H) as [->|Hs]; [reflexivity|].
  rewrite (IH Hs). apply andb_false_r.
Qed.

(** No string with a comma converts to the number 0. *)
Lemma is_zero_comma (s : string) :
  includes "," s = true -> is_zero s = false.
Proof.
  intros H. unfold is_zero, trim.
  pose proof (trim_end_comma _ (trim_start_comma s H)) as Ht.
  destruct (trim_end (trim_start s)) as [|c0 [|c rest]]; [discriminate Ht| |].
  - apply decimal_is_zero_comma. exact Ht.
  - destruct (Ascii.eqb c0 "0" && is_radix_letter c) eqn:Hradix;
      [|apply decimal_is_zero_comma; exact Ht].
    apply andb_true_iff in Hradix as [H0 Hx].
    destruct (includes_comma_cons _ _ Ht) as [->|Ht1]; [discriminate H0|].
    destruct (includes_comma_cons _ _ Ht1) as [->|Ht2]; [discriminate Hx|].
    destruct rest; [reflexivity|]. apply all_zero_digits_comma. exact Ht2.
Qed.

Lemma join_comma_many (a b : string) (l : list string) :
  includes "," (join "," (a :: b :: l)) = true.
Proof.
  change (join "," (a :: b :: l)) with (a ++ "," ++ join "," (b :: l))%string.
  rewrite includes_app. simpl. apply orb_true_r.
Qed.

End CommaFacts.

(** The group lists that [authenticate] takes for a verdict: every list
    of two or more names, and a single name unless it converts to 0. *)
Lemma accepted_groups_many (a b : string) (l : list string) :
  accepted_groups (JArray (a :: b :: l)) = true.
Proof.
  unfold accepted_groups. rewrite (is_zero_comma _ (join_comma_many a b l)). reflexivity.
Qed.

Lemma accepted_groups_one (a : string) :
  accepted_groups (JArray [a]) = negb (ToNumber.is_zero a).
Proof. reflexivity. Qed.

Example static_authenticate_alice :
  authenticate TestDouble.self "alice" "pw" tt
  = (Normal (CbOk (authenticatedUser (Some "alice") (JArray ["alice"]))), tt).
Proof. vm_compute. reflexivity. Qed.

Example roundtrip_example :
  decode_token TestDouble.runtime "s3cret"
    (issue_token TestDouble.runtime "s3cret" (authenticatedUser (Some "carol") (JArray ["dev"])) 1700000000123)
    None 1700000010000 = Normal TestDouble.carol_dev.
Proof. vm_compute. reflexivity. Qed.

(** ** The four walks are the one loop *)

Section WalkFacts.
Context {S : Type}.

Lemma authenticate_next_walk (plugins : list (Plugin.t S)) user password st :
  authenticate_next plugins user password st
  = walk Plugin.authenticate (fun groups => not_nullish groups && negb (loose_eq_false groups))
         authenticate_finish plugins user password st.
Proof.
  revert st. induction plugins as [|p plugins IH]; intros st; simpl; [reflexivity|].
  destruct (Plugin.authenticate p) as [f|]; [|apply IH].
  destruct (f user password st) as [[[err|] groups] st1]; [reflexivity|].
  destruct (not_nullish groups && negb (loose_eq_false groups)); [reflexivity|apply IH].
Qed.

Lemma add_user_next_walk (self : Self.t S) (plugins : list (Plugin.t S)) user password st :
  add_user_next self plugins user password st
  = walk adduser_method truthy_ok (add_user_finish self) plugins user password st.
Proof.
  revert st. induction plugins as [|p plugins IH]; intros st; simpl; [reflexivity|].
  destruct (adduser_method p) as [f|]; [|apply IH].
  destruct (f user password st) as [[[err|] ok] st1]; [reflexivity|].
  destruct (truthy_ok ok); [reflexivity|apply IH].
Qed.

Lemma allow_access_next_walk (plugins : list (Plugin.t S)) user pkg st :
  allow_access_next plugins user pkg st
  = walk Plugin.allow_access truthy_ok allow_finish plugins user pkg st.
Proof.
  revert st. induction plugins as [|p plugins IH]; intros st; simpl; [reflexivity|].
  destruct (Plugin.allow_access p) as [f|]; [|apply IH].
  destruct (f user pkg st) as [[[err|] ok] st1]; [reflexivity|].
  destruct (truthy_ok ok); [reflexivity|apply IH].
Qed.

Lemma allow_publish_next_walk (plugins : list (Plugin.t S)) user pkg st :
  allow_publish_next plugins user pkg st
  = walk Plugin.allow_publish truthy_ok allow_finish plugins user pkg st.
Proof.
  revert st. induction plugins as [|p plugins IH]; intros st; simpl; [reflexivity|].
  destruct (Plugin.allow_publish p) as [f|]; [|apply IH].
  destruct (f user pkg st) as [[[err|] ok] st1]; [reflexivity|].
  destruct (truthy_ok ok); [reflexivity|apply IH].
Qed.

Section Generic.
Context {X Y V R : Type}.
Variable method : Plugin.t S -> option (X -> Y -> S -> cb_args V * S).
Variable test : V -> bool.
Variable finish : X -> Y -> V -> S -> completion (callback R) * S.
Variables empty affirmative : V -> bool.
Hypothesis empty_fails : forall v, empty v = true -> test v = false.
Hypothesis affirmative_passes : forall v, affirmative v = true -> test v = true.

(** The providers passed over leave the walk where it would have started
    on the rest of the list. *)
Lemma walk_passed_over pre rest x y st st1 :
  passed_over method empty x y pre st st1 ->
  walk method test finish (pre ++ rest) x y st = walk method test finish rest x y st1.
Proof.
  induction 1 as [st|p pre st st' Hm _ IH|p pre f v st st1 st' Hm Hf Hv _ IH]; simpl.
  - reflexivity.
  - rewrite Hm. exact IH.
  - rewrite Hm, Hf, (empty_fails _ Hv). exact IH.
Qed.

Lemma walk_short_circuits :
  short_circuits method finish empty affirmative (walk method test finish).
Proof.
  intros pre p post x y st st1 Hpre.
  rewrite (walk_passed_over _ (p :: post) _ _ _ _ Hpre). simpl.
  repeat split.
  - intros ->. reflexivity.
  - intros f err v st2 -> ->. reflexivity.
  - intros f v st2 -> -> Hv. rewrite (affirmative_passes _ Hv). reflexivity.
  - intros f v st2 -> -> Hv. rewrite (empty_fails _ Hv). reflexivity.
Qed.

(** The rule only looks at the results of [next]. *)
Lemma short_circuits_ext next next' :
  (forall plugins x y st, next' plugins x y st = next plugins x y st) ->
  short_circuits method finish empty affirmative next ->
  short_circuits method finish empty affirmative next'.
Proof.
  intros Heq H pre p post x y st st1 Hpre.
  destruct (H pre p post x y st st1 Hpre) as (Hskip & Herr & Haff & Hempty).
  repeat split; intros; rewrite !Heq; eauto.
Qed.

End Generic.

Lemma empty_groups_fail groups :
  empty_groups groups = true ->
  not_nullish groups && negb (loose_eq_false groups) = false.
Proof. destruct groups as [| | |[|s l]]; intros H; try discriminate H; reflexivity. Qed.

Lemma accepted_groups_pass groups :
  accepted_groups groups = true ->
  not_nullish groups && negb (loose_eq_false groups) = true.
Proof. destruct groups as [| | |l]; intros H; try discriminate H; exact H. Qed.

Lemma empty_ok_fails ok : empty_ok ok = true -> truthy_ok ok = false.
Proof. destruct ok as [[|]|]; intros H; try discriminate H; reflexivity. Qed.

End WalkFacts.

(** C1, as amended.  Each of the four operations walks its copy of the
    provider list from the front; a provider that lacks the operation is
    skipped; a provider that calls back with an error ends the walk and the
    caller gets that error; one that calls back with an empty value
    (nothing, null, false, the empty list) is passed over; one that calls
    back with an affirmative value ends the walk: [authenticate] answers
    with the principal built from the accepted group list, [allow_access]
    and [allow_publish] answer true, and [add_user] answers with whatever
    [authenticate] then answers for the same credentials. *)
Theorem chain_walk_short_circuits {S : Type} (self : Self.t S) :
  short_circuits (S:=S) Plugin.authenticate authenticate_finish
                 empty_groups accepted_groups authenticate_next
  /\ short_circuits (S:=S) adduser_method (add_user_finish self)
                    empty_ok truthy_ok (add_user_next self)
  /\ short_circuits (S:=S) Plugin.allow_access allow_finish
                    empty_ok truthy_ok allow_access_next
  /\ short_circuits (S:=S) Plugin.allow_publish allow_finish
                    empty_ok truthy_ok allow_publish_next.
Proof.
  split; [|split; [|split]].
  - eapply short_circuits_ext; [apply authenticate_next_walk|].
    apply walk_short_circuits; [apply empty_groups_fail|apply accepted_groups_pass].
  - eapply short_circuits_ext; [apply add_user_next_walk|].
    apply walk_short_circuits; [apply empty_ok_fails|auto].
  - eapply short_circuits_ext; [apply allow_access_next_walk|].
    apply walk_short_circuits; [apply empty_ok_fails|auto].
  - eapply short_circuits_ext; [apply allow_publish_next_walk|].
    apply walk_short_circuits; [apply empty_ok_fails|auto].
Qed.

(** The rule at work: the static provider does not know bob and is passed
    over, the next provider answers with a group list, the walk stops. *)
Lemma chain_walk_short_circuits_witness :
  passed_over Plugin.authenticate empty_groups "bob" "pw"
    [static_plugin TestDouble.runtime TestDouble.config] tt tt
  /\ authenticate (TestDouble.self_with [TestDouble.one_group "dev"]) "bob" "pw" tt
     = (Normal (CbOk (authenticatedUser (Some "bob") (JArray ["dev"]))), tt).
Proof.
  assert (Hpre : passed_over Plugin.authenticate empty_groups "bob" "pw"
                   [static_plugin TestDouble.runtime TestDouble.config] tt tt).
  { eapply passed_empty; [reflexivity|vm_compute; reflexivity|reflexivity|constructor]. }
  split; [exact Hpre|].
  destruct (chain_walk_short_circuits (TestDouble.self_with [])) as [Hauth _].
  destruct (Hauth _ (TestDouble.one_group "dev") [deny_all_plugin] _ _ _ _ Hpre)
    as (_ & _ & Haff & _).
  eapply Haff; [reflexivity|reflexivity|vm_compute; reflexivity].
Defined.

(** C1, as stated, fails twice.  A provider affirms a registration, and
    [add_user] answers with the error of the [authenticate] walk that
    follows.  A provider answers [authenticate] with the non-empty group
    list ["0"], and the walk goes on to the next provider, whose error the
    caller gets. *)
Lemma chain_walk_counterexample :
  ((exists f, adduser_method TestDouble.registrar = Some f
              /\ f "bob" "pw" tt = ((None, Some true), tt))
   /\ add_user (TestDouble.self_with [TestDouble.registrar]) "bob" "pw" tt
      = (Normal (CbError (HttpError 403 "bad username/password, access denied")), tt))
  /\
  ((exists f, Plugin.authenticate (TestDouble.one_group "0") = Some f
              /\ f "bob" "pw" tt = ((None, JArray ["0"]), tt))
   /\ non_empty_groups (JArray ["0"]) = true
   /\ authenticate (TestDouble.self_with [TestDouble.one_group "0"]) "bob" "pw" tt
      = (Normal (CbError (HttpError 403 "bad username/password, access denied")), tt)).
Proof.
  split; [split|split; [|split]].
  - eexists. split; reflexivity.
  - vm_compute. reflexivity.
  - eexists. split; reflexivity.
  - reflexivity.
  - vm_compute. reflexivity.
Qed.

(** The same loose comparison keeps a configured user called "0" from
    logging in with the right password. *)
Example static_user_zero :
  let config :=
    {| Config.users := Some {[ "0" := {| UserEntry.password := "sha1:pw" |} ]};
       Config.get_package_spec := Config.get_package_spec TestDouble.config;
       Config.secret := "s3cret" |} in
  authenticate (Auth (S:=unit) TestDouble.runtime config []) "0" "pw" tt
  = (Normal (CbError (HttpError 403 "bad username/password, access denied")), tt).
Proof. vm_compute. reflexivity. Qed.

(** ** The deny-all provider *)

Lemma acl_matches_fold (user : Principal) (names : list string) (prev : bool) :
  fold_left (fun prev curr => if bool_decide (curr ∈ groups user) then true else prev)
            names prev = true
  <-> prev = true \/ intersects names user.
Proof.
  revert prev. induction names as [|curr names IH]; intros prev; simpl.
  - split; [auto|]. intros [H|(group & Hin & _)]; [exact H|]. inversion Hin.
  - rewrite IH. unfold intersects. case_bool_decide as Hcurr.
    + split; [|auto]. intros _. right. exists curr. split; [left|exact Hcurr].
    + split.
      * intros [H|(group & Hin & Hg)]; [auto|]. right. exists group. split; [right; exact Hin|exact Hg].
      * intros [H|(group & Hin & Hg)]; [auto|]. right.
        apply elem_of_cons in Hin as [->|Hin]; [contradiction|]. exists group. auto.
Qed.

Lemma acl_matches_intersects (user : Principal) (names : list string) :
  acl_matches user names = true <-> intersects names user.
Proof.
  unfold acl_matches. rewrite acl_matches_fold. split; [|auto].
  intros [H|H]; [discriminate H|exact H].
Qed.

Lemma acl_matches_not_intersects (user : Principal) (names : list string) :
  acl_matches user names = false <-> ~ intersects names user.
Proof.
  rewrite <- acl_matches_intersects.
  destruct (acl_matches user names); intuition congruence.
Qed.

(** What [allow_action] calls back with. *)
Lemma allow_action_allowed {S} action user pkg (st : S) :
  intersects (acl action pkg) user ->
  allow_action action user pkg st = ((None, Some true), st).
Proof.
  intros H. unfold allow_action.
  apply acl_matches_intersects in H. rewrite H. reflexivity.
Qed.

Lemma allow_action_refused {S} action user pkg (st : S) :
  ~ intersects (acl action pkg) user ->
  allow_action action user pkg st
  = ((Some (match name user with
            | Some (String _ _ as n) => not_allowed_user n action (pkg_name pkg)
            | _ => not_allowed_unregistered action (pkg_name pkg)
            end), None), st).
Proof.
  intros H. unfold allow_action.
  apply acl_matches_not_intersects in H. rewrite H.
  destruct (name user) as [[|c n]|]; reflexivity.
Qed.

(** With the providers before it passed over, the deny-all provider
    answers for the chain. *)
Lemma allow_reaches_deny_all {S} (self : Self.t S) (pre : list (Plugin.t S))
    (action : Action) package_name user (st st1 : S) :
  Self.plugins self = pre ++ [deny_all_plugin] ->
  passed_over (allow_method action) empty_ok user (package_of self package_name) pre st st1 ->
  allow self action package_name user st
  = walk (allow_method action) truthy_ok allow_finish [deny_all_plugin]
         user (package_of self package_name) st1.
Proof.
  intros Hplugins Hpre.
  destruct action; simpl; unfold allow_access, allow_publish; rewrite Hplugins.
  - rewrite allow_access_next_walk.
    exact (walk_passed_over _ _ _ _ empty_ok_fails _ _ _ _ _ _ Hpre).
  - rewrite allow_publish_next_walk.
    exact (walk_passed_over _ _ _ _ empty_ok_fails _ _ _ _ _ _ Hpre).
Qed.

Lemma deny_all_allow_method {S} (action : Action) :
  allow_method (S:=S) action deny_all_plugin = Some (allow_action action).
Proof. destruct action; reflexivity. Qed.

(** C2, as amended.  Let the chain end in the deny-all provider and let
    every provider before it lack the operation or call back with an
    empty value.  Then [allow_access] answers true if and only if some
    name of the package's access list occurs in the principal's groups;
    otherwise it answers with a 403 error, whose message names the
    principal when its name is a non-empty string and says "unregistered
    users" when it has no name.  The same holds of [allow_publish] and
    the publish list. *)
Theorem deny_all_decides {S} (self : Self.t S) (pre : list (Plugin.t S))
    (action : Action) (package_name : string) (user : Principal) (st st1 : S) :
  Self.plugins self = pre ++ [deny_all_plugin] ->
  passed_over (allow_method action) empty_ok user (package_of self package_name) pre st st1 ->
  let names := acl action (package_of self package_name) in
  let answer := allow self action package_name user st in
  (answer = (Normal (CbOk true), st1) <-> intersects names user)
  /\ (~ intersects names user ->
      (exists msg, answer = (Normal (CbError (HttpError 403 msg)), st1))
      /\ (forall n, name user = Some n -> n <> "" ->
          answer = (Normal (CbError (not_allowed_user n action package_name)), st1))
      /\ (name user = None ->
          answer = (Normal (CbError (not_allowed_unregistered action package_name)), st1))).
Proof.
  intros Hplugins Hpre names answer. subst answer.
  rewrite (allow_reaches_deny_all self pre action package_name user st st1 Hplugins Hpre).
  simpl. rewrite deny_all_allow_method.
  assert (Hrefused : ~ intersects names user ->
            allow_action action user (package_of self package_name) st1
            = ((Some (match name user with
                      | Some (String _ _ as n) => not_allowed_user n action package_name
                      | _ => not_allowed_unregistered action package_name
                      end), None), st1)).
  { intros H. exact (allow_action_refused action user (package_of self package_name) st1 H). }
  split; [split|].
  - intros Hanswer.
    destruct (acl_matches user names) eqn:Hm; [apply acl_matches_intersects; exact Hm|].
    apply acl_matches_not_intersects in Hm. rewrite (Hrefused Hm) in Hanswer.
    discriminate Hanswer.
  - intros H. rewrite (allow_action_allowed action user _ st1 H). reflexivity.
  - intros H. rewrite (Hrefused H). repeat split.
    + destruct (name user) as [[|c n]|]; eexists; reflexivity.
    + intros n -> Hn. destruct n as [|c n]; [contradiction|reflexivity].
    + intros ->. reflexivity.
Qed.

(** The rule at work: the static provider has no [allow_access], and the
    deny-all provider refuses mallory by name. *)
Lemma deny_all_decides_witness :
  passed_over (allow_method access) empty_ok TestDouble.mallory
    (package_of (TestDouble.self_with []) "private")
    [static_plugin TestDouble.runtime TestDouble.config] tt tt
  /\ allow (TestDouble.self_with []) access "private" TestDouble.mallory tt
     = (Normal (CbError (not_allowed_user "mallory" access "private")), tt).
Proof.
  assert (Hpre : passed_over (allow_method access) empty_ok TestDouble.mallory
                   (package_of (TestDouble.self_with []) "private")
                   [static_plugin TestDouble.runtime TestDouble.config] tt tt).
  { apply passed_skip; [reflexivity|constructor]. }
  split; [exact Hpre|].
  destruct (deny_all_decides (TestDouble.self_with [])
              [static_plugin TestDouble.runtime TestDouble.config]
              access "private" TestDouble.mallory tt tt eq_refl Hpre) as [_ Hrefused].
  apply Hrefused; [|reflexivity|discriminate].
  apply acl_matches_not_intersects. vm_compute. reflexivity.
Defined.

(** C2, as stated, fails twice.  With a provider before the deny-all one
    that lets everyone in, [allow_access] answers true for a principal in
    none of the package's groups.  And a principal whose name is the empty
    string is refused as "unregistered users". *)
Lemma deny_all_counterexample :
  (~ intersects (acl access (package_of (TestDouble.self_with [TestDouble.allow_everything]) "private"))
       TestDouble.mallory
   /\ allow_access (TestDouble.self_with [TestDouble.allow_everything]) "private"
        TestDouble.mallory tt
      = (Normal (CbOk true), tt))
  /\
  (name TestDouble.nameless = Some ""
   /\ allow_access (TestDouble.self_with []) "private" TestDouble.nameless tt
      = (Normal (CbError (HttpError 403
           "unregistered users are not allowed to access package private")), tt)).
Proof.
  split; split.
  - apply acl_matches_not_intersects. vm_compute. reflexivity.
  - vm_compute. reflexivity.
  - reflexivity.
  - vm_compute. reflexivity.
Qed.

(** ** A chain that ends in the deny-all provider always answers *)

Section Answers.
Context {S : Type}.

Lemma authenticate_next_answers (pre : list (Plugin.t S)) user password st :
  answers (authenticate_next (pre ++ [deny_all_plugin]) user password st).
Proof.
  revert st. induction pre as [|p pre IH]; intros st; simpl.
  - eexists. reflexivity.
  - destruct (Plugin.authenticate p) as [f|]; [|apply IH].
    destruct (f user password st) as [[[err|] groups] st1]; [eexists; reflexivity|].
    destruct (not_nullish groups && negb (loose_eq_false groups)); [eexists; reflexivity|].
    apply IH.
Qed.

Lemma add_user_next_answers (self : Self.t S) (pre pre' : list (Plugin.t S))
    user password st :
  Self.plugins self = pre' ++ [deny_all_plugin] ->
  answers (add_user_next self (pre ++ [deny_all_plugin]) user password st).
Proof.
  intros Hself. revert st. induction pre as [|p pre IH]; intros st; simpl.
  - eexists. reflexivity.
  - destruct (adduser_method p) as [f|]; [|apply IH].
    destruct (f user password st) as [[[err|] ok] st1]; [eexists; reflexivity|].
    destruct (truthy_ok ok); [|apply IH].
    unfold authenticate. rewrite Hself. apply authenticate_next_answers.
Qed.

Lemma allow_access_next_answers (pre : list (Plugin.t S)) user pkg st :
  answers (allow_access_next (pre ++ [deny_all_plugin]) user pkg st).
Proof.
  revert st. induction pre as [|p pre IH]; intros st; simpl.
  - unfold allow_action. destruct (acl_matches user (acl access pkg)).
    + eexists. reflexivity.
    + destruct (name user) as [[|c n]|]; eexists; reflexivity.
  - destruct (Plugin.allow_access p) as [f|]; [|apply IH].
    destruct (f user pkg st) as [[[err|] ok] st1]; [eexists; reflexivity|].
    destruct (truthy_ok ok); [eexists; reflexivity|apply IH].
Qed.

Lemma allow_publish_next_answers (pre : list (Plugin.t S)) user pkg st :
  answers (allow_publish_next (pre ++ [deny_all_plugin]) user pkg st).
Proof.
  revert st. induction pre as [|p pre IH]; intros st; simpl.
  - unfold allow_action. destruct (acl_matches user (acl publish pkg)).
    + eexists. reflexivity.
    + destruct (name user) as [[|c n]|]; eexists; reflexivity.
  - destruct (Plugin.allow_publish p) as [f|]; [|apply IH].
    destruct (f user pkg st) as [[[err|] ok] st1]; [eexists; reflexivity|].
    destruct (truthy_ok ok); [eexists; reflexivity|apply IH].
Qed.

(** X1.  Every operation of a facade built by [Auth] calls its callback,
    whatever providers were loaded: the deny-all provider at the end
    always has a verdict, so no walk runs off the end of the list. *)
Lemma Auth_answers (P : platform) (config : Config.t) (loaded : list (Plugin.t S))
    user password package_name principal st :
  let self := Auth P config loaded in
  answers (authenticate self user password st)
  /\ answers (add_user self user password st)
  /\ answers (allow_access self package_name principal st)
  /\ answers (allow_publish self package_name principal st).
Proof.
  intros self.
  change (Self.plugins self) with ((static_plugin P config :: loaded) ++ [deny_all_plugin]).
  unfold authenticate, add_user, allow_access, allow_publish.
  change (Self.plugins self) with ((static_plugin P config :: loaded) ++ [deny_all_plugin]).
  split; [apply authenticate_next_answers|].
  split; [apply (add_user_next_answers self _ (static_plugin P config :: loaded)); reflexivity|].
  split; [apply allow_access_next_answers|apply allow_publish_next_answers].
Qed.

End Answers.

(** ** The signed token *)

Section Token.
Context (P : platform) (secret : string).

(** What [decode_token] does once the length test and the MAC test have
    passed and the payload has been parsed. *)
Lemma decode_token_checked (str : string) (expire_time : option Z) (now : Z)
    (o : Payload.payload) :
  let buf := base64_decode P str in
  (32 < length buf)%nat ->
  sha512_hex P (drop (length buf - 32) buf)
  = sha512_hex P (hmac_sha256 P secret (take (length buf - 32) buf)) ->
  jju_parse P (utf8_decode P (take (length buf - 32) buf)) = Normal o ->
  decode_token P secret str expire_time now
  = if (Z.abs (Payload.t o - now_seconds now) >? expire_or_default expire_time)%Z
    then Throw (HttpError 401 "token expired")
    else Normal o.
Proof.
  intros buf Hlen Hmac Hparse. unfold decode_token. fold buf.
  apply Nat.leb_gt in Hlen. rewrite Hlen, Hmac, String.eqb_refl. simpl.
  rewrite Hparse. reflexivity.
Qed.

(** The buffer that [issue_token] encodes splits back into the serialised
    payload and its MAC. *)
Lemma token_buffer_split (data mac : bytes) :
  length mac = 32%nat ->
  take (length (data ++ mac) - 32) (data ++ mac) = data
  /\ drop (length (data ++ mac) - 32) (data ++ mac) = mac.
Proof.
  intros Hmac. rewrite length_app, Hmac.
  replace (length data + 32 - 32)%nat with (length data) by lia.
  split; [apply take_app_length|apply drop_app_length].
Qed.

End Token.

(** C3, as amended.  Let a principal have a name, and let the runtime
    behave on its token: base64 and the payload's serialisation decode
    back, the MAC is 32 bytes long, the serialised payload is not empty.
    Then decoding the issued token with the same secret, within the
    expiry window, gives a payload whose [u] is the principal's name and
    whose [g] is the principal's [real_groups] when that list is not
    empty, and is absent when it is empty. *)
Theorem token_round_trip (P : platform) (secret : string) (user : Principal) (n : string)
    (now now' : Z) (expire_time : option Z) :
  let o := token_payload user now in
  let data := utf8_encode P (jju_stringify P o) in
  let mac := hmac_sha256 P secret data in
  name user = Some n ->
  base64_decode P (base64_encode P (data ++ mac)) = data ++ mac ->
  jju_parse P (utf8_decode P data) = Normal o ->
  length mac = 32%nat ->
  data <> [] ->
  (Z.abs (now_seconds now - now_seconds now') <= expire_or_default expire_time)%Z ->
  exists decoded,
    decode_token P secret (issue_token P secret user now) expire_time now' = Normal decoded
    /\ Payload.u decoded = Some n
    /\ (forall group l, real_groups user = JArray (group :: l) ->
        Payload.g decoded = Some (group :: l))
    /\ (real_groups user = JArray [] -> Payload.g decoded = None).
Proof.
  intros o data mac Hname Hb64 Hparse Hmac Hdata Hwindow.
  destruct (token_buffer_split data mac Hmac) as [Htake Hdrop].
  exists o. split; [|split; [exact Hname|split]].
  - rewrite (decode_token_checked P secret _ expire_time now' o).
    + replace (Payload.t o) with (now_seconds now) by reflexivity.
      destruct (Z.gtb_spec (Z.abs (now_seconds now - now_seconds now'))
                           (expire_or_default expire_time)); [lia|reflexivity].
    + unfold issue_token. fold o data mac. rewrite Hb64, length_app, Hmac.
      destruct data; [contradiction|simpl; lia].
    + unfold issue_token. fold o data mac. rewrite Hb64, Htake, Hdrop. reflexivity.
    + unfold issue_token. fold o data mac. rewrite Hb64, Htake. exact Hparse.
  - intros group l Hrg. simpl. rewrite Hrg. reflexivity.
  - intros Hrg. simpl. rewrite Hrg. reflexivity.
Qed.

(** The round trip on the stand-in runtime, ten seconds after issuance. *)
Lemma token_round_trip_witness :
  exists decoded,
    decode_token TestDouble.runtime "s3cret"
      (issue_token TestDouble.runtime "s3cret"
         (authenticatedUser (Some "carol") (JArray ["dev"])) 1700000000123)
      None 1700000010000 = Normal decoded
    /\ Payload.u decoded = Some "carol"
    /\ Payload.g decoded = Some ["dev"].
Proof.
  destruct (token_round_trip TestDouble.runtime "s3cret"
              (authenticatedUser (Some "carol") (JArray ["dev"])) "carol"
              1700000000123 1700000010000 None)
    as (decoded & Hdecode & Hu & Hg & _).
  - reflexivity.
  - vm_compute. reflexivity.
  - vm_compute. reflexivity.
  - vm_compute. reflexivity.
  - discriminate.
  - vm_compute. discriminate.
  - exists decoded. split; [exact Hdecode|]. split; [exact Hu|].
    apply Hg. reflexivity.
Defined.

(** C3, as stated, fails on the empty sequence: the payload of a
    principal whose [real_groups] is the empty list has no [g]. *)
Lemma token_round_trip_counterexample :
  let user := authenticatedUser (Some "carol") (JArray []) in
  real_groups user = JArray []
  /\ exists decoded,
      decode_token TestDouble.runtime "s3cret"
        (issue_token TestDouble.runtime "s3cret" user 1700000000123)
        None 1700000010000 = Normal decoded
      /\ Payload.g decoded = None
      /\ payload_field_g decoded <> real_groups user.
Proof.
  split; [reflexivity|].
  exists TestDouble.carol_alone. split; [vm_compute; reflexivity|].
  split; [reflexivity|discriminate].
Qed.

(** C6, as amended.  For a token that passes the length test and the MAC
    test and whose payload parses, [decode_token] throws the 401 error
    "token expired" exactly when the distance between the payload's [t]
    and the current time in seconds is greater than the window, which is
    the [expire_time] given when that is not 0, and 86400 otherwise; when
    the distance is not greater, and so one second before the boundary,
    it returns the payload. *)
Theorem token_expiry (P : platform) (secret str : string) (expire_time : option Z)
    (now : Z) (o : Payload.payload) :
  let buf := base64_decode P str in
  let age := Z.abs (Payload.t o - now_seconds now) in
  let window := match expire_time with
                | Some e => if (e =? 0)%Z then 86400%Z else e
                | None => 86400%Z
                end in
  (32 < length buf)%nat ->
  sha512_hex P (drop (length buf - 32) buf)
  = sha512_hex P (hmac_sha256 P secret (take (length buf - 32) buf)) ->
  jju_parse P (utf8_decode P (take (length buf - 32) buf)) = Normal o ->
  (decode_token P secret str expire_time now = Throw (HttpError 401 "token expired")
   <-> (age > window)%Z)
  /\ ((age <= window)%Z -> decode_token P secret str expire_time now = Normal o)
  /\ (age = (window - 1)%Z -> decode_token P secret str expire_time now = Normal o).
Proof.
  intros buf age window Hlen Hmac Hparse.
  rewrite (decode_token_checked P secret str expire_time now o Hlen Hmac Hparse).
  change (expire_or_default expire_time) with window. fold age.
  destruct (Z.gtb_spec age window) as [Hgt|Hle].
  - split; [split; [lia|reflexivity]|]. split; intros; lia.
  - split; [split; [discriminate|lia]|]. split; reflexivity.
Qed.

(** One second before the boundary the token decodes; one second after
    it, it has expired. *)
Lemma token_expiry_witness :
  decode_token TestDouble.runtime "s3cret"
    (issue_token TestDouble.runtime "s3cret"
       (authenticatedUser (Some "carol") (JArray ["dev"])) 1700000000123)
    None 1700086399999 = Normal TestDouble.carol_dev
  /\ decode_token TestDouble.runtime "s3cret"
    (issue_token TestDouble.runtime "s3cret"
       (authenticatedUser (Some "carol") (JArray ["dev"])) 1700000000123)
    None 1700086401000 = Throw (HttpError 401 "token expired").
Proof.
  split.
  - apply (token_expiry TestDouble.runtime "s3cret" _ None 1700086399999 TestDouble.carol_dev).
    + vm_compute. lia.
    + vm_compute. reflexivity.
    + vm_compute. reflexivity.
    + vm_compute. reflexivity.
  - apply (token_expiry TestDouble.runtime "s3cret" _ None 1700086401000 TestDouble.carol_dev).
    + vm_compute. lia.
    + vm_compute. reflexivity.
    + vm_compute. reflexivity.
    + vm_compute. reflexivity.
Defined.

(** C6, as stated, fails for a window of 0: the token is five seconds
    old, and [decode_token], given 0 for [expire_time], returns its
    payload. *)
Lemma token_expiry_counterexample :
  let str := issue_token TestDouble.runtime "s3cret"
               (authenticatedUser (Some "carol") (JArray ["dev"])) 1700000000123 in
  decode_token TestDouble.runtime "s3cret" str (Some 0%Z) 1700000005000
  = Normal TestDouble.carol_dev
  /\ (Z.abs (Payload.t TestDouble.carol_dev - now_seconds 1700000005000) > 0)%Z.
Proof. split; vm_compute; reflexivity. Qed.

(** ** The static-credential provider *)

(** C4, as amended.  The [adduser] of the provider that [Auth] puts first
    calls back with the error "this user already exists", of status 403,
    when the user has an entry in [config.users]; and with nothing (no
    error, no value) when there is no table, or when the user has no
    entry and the name is none of those that every object inherits. *)
Theorem static_adduser (P : platform) (S : Type) (config : Config.t) :
  exists adduser,
    Plugin.adduser (static_plugin (S:=S) P config) = Some adduser
    /\ forall (user password : string) (st : S),
        (forall users, Config.users config = Some users -> is_Some (users !! user) ->
         adduser user password st
         = ((Some (HttpError 403 "this user already exists"), None), st))
        /\ (forall users, Config.users config = Some users -> users !! user = None ->
            inherited user = false ->
            adduser user password st = ((None, None), st))
        /\ (Config.users config = None -> adduser user password st = ((None, None), st)).
Proof.
  eexists. split; [reflexivity|]. intros user password st. repeat split.
  - intros users -> [entry Hentry]. unfold truthy_entry. rewrite Hentry. reflexivity.
  - intros users -> Hnone Hinh. unfold truthy_entry. rewrite Hnone, Hinh. reflexivity.
  - intros ->. reflexivity.
Qed.

(** alice is in the table, bob is not. *)
Lemma static_adduser_witness :
  exists adduser,
    Plugin.adduser (static_plugin (S:=unit) TestDouble.runtime TestDouble.config) = Some adduser
    /\ adduser "alice" "other" tt = ((Some (HttpError 403 "this user already exists"), None), tt)
    /\ adduser "bob" "pw" tt = ((None, None), tt).
Proof.
  destruct (static_adduser TestDouble.runtime unit TestDouble.config) as (adduser & Heq & H).
  exists adduser. split; [exact Heq|]. split.
  - destruct (H "alice" "other" tt) as (Hexists & _ & _).
    apply (Hexists _ eq_refl). vm_compute. eauto.
  - destruct (H "bob" "pw" tt) as (_ & Hfree & _).
    apply (Hfree _ eq_refl); vm_compute; reflexivity.
Defined.

(** C4, as stated, fails twice.  For a user of the table the error has
    status 403, not 409.  And for the name constructor, which has no
    entry in the table, the provider does not defer: the table, a plain
    object, answers with what it inherits, and the error is the same
    403. *)
Lemma static_adduser_counterexample :
  exists adduser e,
    Plugin.adduser (static_plugin (S:=unit) TestDouble.runtime TestDouble.config) = Some adduser
    /\ (is_Some (Config.users TestDouble.config ≫= lookup "alice")
        /\ adduser "alice" "other" tt = ((Some e, None), tt)
        /\ status e = Some 403%Z
        /\ status e <> Some 409%Z)
    /\ (Config.users TestDouble.config ≫= lookup "constructor" = None
        /\ adduser "constructor" "pw" tt = ((Some e, None), tt)).
Proof.
  eexists _, _. split; [reflexivity|]. split.
  - split; [vm_compute; eauto|].
    split; [vm_compute; reflexivity|]. split; [reflexivity|discriminate].
  - split; vm_compute; reflexivity.
Qed.

(** ** The cipher *)

Lemma aes_decrypt_total (P : platform) (secret : string) (buf : bytes) :
  aes_decrypt P secret buf
  = match aes_decrypt_body P secret buf with
    | Normal plain => Normal plain
    | Throw _ => Normal []
    end.
Proof. reflexivity. Qed.

(** C8.  [aes_decrypt] returns for every input, and returns the empty
    buffer whenever creating the decipher, updating it or finishing it
    throws.  Its callers then go on as they do without credentials: where
    the empty buffer reads as the empty string, the Basic middleware on a
    Bearer header and the Cookie middleware on a cookie leave the request
    as it is when the header or the cookie is missing (anonymous, unless
    it came with a named principal) and call the continuation without an
    error. *)
Theorem aes_decrypt_never_throws (P : platform) (secret : string) (buf : bytes) :
  (exists plain, aes_decrypt P secret buf = Normal plain)
  /\ (forall e, aes_decrypt_body P secret buf = Throw e ->
      aes_decrypt P secret buf = Normal [])
  /\ (forall e, aes_decrypt_body P secret buf = Throw e ->
      utf8_decode P [] = "" ->
      forall (S : Type) (self : Self.t S) (req : Request) (st : S) (value : string),
        Self.secret self = secret ->
        base64_decode P value = buf ->
        let anonymous :=
          (Normal (resume (if has_named_user req then pause req
                           else set_remote_user buildAnonymousUser (pause req)), None), st) in
        (forall header,
            authorization req = Some header ->
            JsString.split " " header = ["Bearer"; value] ->
            basic_middleware P self req st = anonymous)
        /\ (authorization req = None -> basic_middleware P self req st = anonymous)
        /\ (cookies_token req = Some value -> cookie_middleware P self req st = anonymous)
        /\ (cookies_token req = None -> cookie_middleware P self req st = anonymous)).
Proof.
  split; [|split].
  - rewrite aes_decrypt_total. destruct (aes_decrypt_body P secret buf); eauto.
  - intros e He. rewrite aes_decrypt_total, He. reflexivity.
  - intros e He Hutf8 S self req st value Hsecret Hvalue anonymous.
    assert (Hempty : aes_decrypt P (Self.secret self) (base64_decode P value) = Normal []).
    { rewrite Hsecret, Hvalue, aes_decrypt_total, He. reflexivity. }
    subst anonymous. unfold basic_middleware, cookie_middleware.
    change (has_named_user (pause req)) with (has_named_user req).
    destruct (has_named_user req); [repeat split; reflexivity|].
    cbn [authorization cookies_token set_remote_user pause].
    repeat split.
    + intros header -> ->. cbn. rewrite Hempty, Hutf8. reflexivity.
    + intros ->. reflexivity.
    + intros ->. rewrite Hempty, Hutf8. reflexivity.
    + intros ->. reflexivity.
Qed.

(** An empty blob fails to decipher; the request goes on anonymous. *)
Lemma aes_decrypt_never_throws_witness :
  aes_decrypt_body TestDouble.runtime "s3cret" [] = Throw (OtherError "bad decrypt")
  /\ aes_decrypt TestDouble.runtime "s3cret" [] = Normal []
  /\ basic_middleware TestDouble.runtime (TestDouble.self_with [])
       {| remote_user := None; authorization := Some "Bearer ";
          cookies_token := None; paused := false |} tt
     = (Normal ({| remote_user := Some buildAnonymousUser; authorization := Some "Bearer ";
                   cookies_token := None; paused := false |}, None), tt).
Proof.
  destruct (aes_decrypt_never_throws TestDouble.runtime "s3cret" [])
    as (_ & Hempty & Hcallers).
  split; [reflexivity|]. split.
  - apply (Hempty (OtherError "bad decrypt")). reflexivity.
  - destruct (Hcallers (OtherError "bad decrypt") eq_refl eq_refl unit
                (TestDouble.self_with [])
                {| remote_user := None; authorization := Some "Bearer ";
                   cookies_token := None; paused := false |} tt ""
                eq_refl eq_refl) as (Hbearer & _).
    apply (Hbearer "Bearer "); reflexivity.
Defined.

(** ** The Bearer middleware *)

(** C7, as amended.  For a request that does not already carry a named
    principal and whose Authorization header is the scheme Bearer and a
    token, a token on which [decode_token] throws makes the Bearer
    middleware resume the request, leave it anonymous and call the
    continuation with the error thrown. *)
Theorem bearer_propagates (P : platform) (S : Type) (self : Self.t S) (req : Request)
    (now : Z) (header tok : string) (err : js_error) :
  has_named_user req = false ->
  authorization req = Some header ->
  JsString.split " " header = ["Bearer"; tok] ->
  decode_token P (Self.secret self) tok None now = Throw err ->
  bearer_middleware P self req now
  = Normal (resume (set_remote_user buildAnonymousUser (pause req)), Some err).
Proof.
  intros Hnamed Hheader Hsplit Hdecode. unfold bearer_middleware.
  change (has_named_user (pause req)) with (has_named_user req). rewrite Hnamed.
  cbn [authorization set_remote_user pause]. rewrite Hheader, Hsplit. cbn.
  rewrite Hdecode. reflexivity.
Qed.

(** A token of five bytes is too short; the continuation gets the 401. *)
Lemma bearer_propagates_witness :
  decode_token TestDouble.runtime "s3cret" "short" None 1700000000000
  = Throw (HttpError 401 "invalid token")
  /\ bearer_middleware TestDouble.runtime (TestDouble.self_with [])
       {| remote_user := None; authorization := Some "Bearer short";
          cookies_token := None; paused := false |} 1700000000000
     = Normal ({| remote_user := Some buildAnonymousUser;
                  authorization := Some "Bearer short";
                  cookies_token := None; paused := false |},
               Some (HttpError 401 "invalid token")).
Proof.
  split; [reflexivity|].
  exact (bearer_propagates TestDouble.runtime unit (TestDouble.self_with [])
           {| remote_user := None; authorization := Some "Bearer short";
              cookies_token := None; paused := false |}
           1700000000000 "Bearer short" "short" (HttpError 401 "invalid token")
           eq_refl eq_refl eq_refl eq_refl).
Defined.

(** C7, as stated, fails for a request that already carries a named
    principal: the token does not decode, and the continuation is called
    without an error. *)
Lemma bearer_propagates_counterexample :
  let req := {| remote_user := Some TestDouble.mallory;
                authorization := Some "Bearer short";
                cookies_token := None; paused := false |} in
  decode_token TestDouble.runtime "s3cret" "short" None 1700000000000
  = Throw (HttpError 401 "invalid token")
  /\ bearer_middleware TestDouble.runtime (TestDouble.self_with []) req 1700000000000
     = Normal (req, None).
Proof. split; reflexivity. Qed.

(** C9.  The authenticated builder puts exactly five markers after the
    real groups.  So for a request without a named principal whose
    header is Bearer and a token that decodes to the payload
    [{u: "carol", g: ["dev"]}], the Bearer middleware calls the
    continuation without an error, and the request then carries the
    principal named carol whose groups are dev followed by the five
    markers, and whose token is the one of the header. *)
Theorem bearer_attaches_carol (P : platform) (S : Type) (self : Self.t S) (req : Request)
    (now : Z) (header tok : string) (issued : Z) :
  (forall name l,
      groups (authenticatedUser name (JArray l))
      = l ++ ["$all"; "$authenticated"; "@all"; "@authenticated"; "all"])
  /\ (has_named_user req = false ->
      authorization req = Some header ->
      JsString.split " " header = ["Bearer"; tok] ->
      decode_token P (Self.secret self) tok None now
      = Normal {| Payload.u := Some "carol"; Payload.g := Some ["dev"];
                  Payload.t := issued |} ->
      exists req' user,
        bearer_middleware P self req now = Normal (req', None)
        /\ remote_user req' = Some user
        /\ name user = Some "carol"
        /\ groups user = ["dev"; "$all"; "$authenticated"; "@all"; "@authenticated"; "all"]
        /\ real_groups user = JArray ["dev"]
        /\ token user = Some tok).
Proof.
  split; [reflexivity|].
  intros Hnamed Hheader Hsplit Hdecode. unfold bearer_middleware.
  change (has_named_user (pause req)) with (has_named_user req). rewrite Hnamed.
  cbn [authorization set_remote_user pause]. rewrite Hheader, Hsplit. cbn.
  rewrite Hdecode. cbn. eexists _, _. repeat split.
Qed.

(** The scenario on the stand-in runtime, ten seconds after issuance. *)
Lemma bearer_attaches_carol_witness :
  let tok := issue_token TestDouble.runtime "s3cret"
               (authenticatedUser (Some "carol") (JArray ["dev"])) 1700000000123 in
  exists req' user,
    bearer_middleware TestDouble.runtime (TestDouble.self_with [])
      {| remote_user := None; authorization := Some ("Bearer " ++ tok)%string;
         cookies_token := None; paused := true |} 1700000010123
    = Normal (req', None)
    /\ remote_user req' = Some user
    /\ name user = Some "carol"
    /\ groups user = ["dev"; "$all"; "$authenticated"; "@all"; "@authenticated"; "all"].
Proof.
  intros tok.
  destruct (bearer_attaches_carol TestDouble.runtime unit (TestDouble.self_with [])
              {| remote_user := None; authorization := Some ("Bearer " ++ tok)%string;
                 cookies_token := None; paused := true |}
              1700000010123 ("Bearer " ++ tok)%string tok 1700000000) as [_ H].
  destruct H as (req' & user & Hrun & Huser & Hname & Hgroups & _).
  - reflexivity.
  - reflexivity.
  - vm_compute. reflexivity.
  - vm_compute. reflexivity.
  - exists req', user. auto.
Defined.

(** ** The Basic and the Cookie middleware *)

Lemma indexOf_not_empty (c : ascii) (s : string) (index : nat) :
  JsString.indexOf c s = Some index -> String.eqb s "" = false.
Proof. destruct s; [discriminate|reflexivity]. Qed.

(** The shared tail of the two middlewares, on credentials that the
    chain refuses. *)
Lemma authenticate_credentials_refused {S}
    (next : Request -> option js_error -> completion continued)
    (self : Self.t S) (req : Request) (credentials : string) (index : nat)
    (err : js_error) (st st1 : S) :
  JsString.indexOf ":" credentials = Some index ->
  authenticate self (JsString.slice_to index credentials)
    (JsString.slice_from (index + 1) credentials) st = (Normal (CbError err), st1) ->
  authenticate_credentials next self req credentials st
  = (next (set_remote_user buildAnonymousUser req) (Some err), st1).
Proof.
  intros Hindex Hauth. unfold authenticate_credentials. rewrite Hindex, Hauth. reflexivity.
Qed.

(** C5, as amended.  Take a request that does not already carry a named
    principal, and credentials "user:pass" that [authenticate] refuses
    with an error.  When they come in a Basic header, or encrypted in a
    Bearer header, the Basic middleware resumes the request, leaves it
    with the anonymous principal, records the message of the error on
    that principal and calls the continuation without an error.  When
    they come encrypted in the cookie, the Cookie middleware resumes the
    request, leaves it with the anonymous principal and calls the
    continuation without an error; it records nothing. *)
Theorem refused_credentials_swallowed (P : platform) (S : Type) (self : Self.t S)
    (req : Request) (credentials : string) (index : nat) (err : js_error) (st st1 : S) :
  has_named_user req = false ->
  JsString.indexOf ":" credentials = Some index ->
  authenticate self (JsString.slice_to index credentials)
    (JsString.slice_from (index + 1) credentials) st = (Normal (CbError err), st1) ->
  let recorded :=
    (Normal (resume (set_remote_user (set_error (message err) buildAnonymousUser)
                       (pause req)), None), st1) in
  let dropped :=
    (Normal (resume (set_remote_user buildAnonymousUser (pause req)), None), st1) in
  (forall header value,
      authorization req = Some header ->
      JsString.split " " header = ["Basic"; value] ->
      credentials = utf8_decode P (base64_decode P value) ->
      basic_middleware P self req st = recorded)
  /\ (forall header value plain,
         authorization req = Some header ->
         JsString.split " " header = ["Bearer"; value] ->
         aes_decrypt P (Self.secret self) (base64_decode P value) = Normal plain ->
         credentials = utf8_decode P plain ->
         basic_middleware P self req st = recorded)
  /\ (forall value plain,
         cookies_token req = Some value ->
         aes_decrypt P (Self.secret self) (base64_decode P value) = Normal plain ->
         credentials = utf8_decode P plain ->
         cookie_middleware P self req st = dropped).
Proof.
  intros Hnamed Hindex Hauth recorded dropped.
  pose proof (indexOf_not_empty _ _ _ Hindex) as Hne.
  unfold basic_middleware, cookie_middleware.
  change (has_named_user (pause req)) with (has_named_user req). rewrite Hnamed.
  cbn [authorization cookies_token set_remote_user pause].
  split; [|split].
  - intros header value -> -> Hcred. cbn. rewrite <- Hcred.
    rewrite (authenticate_credentials_refused _ _ _ _ _ _ _ _ Hindex Hauth). reflexivity.
  - intros header value plain -> -> -> Hcred. cbn. rewrite <- Hcred, Hne.
    rewrite (authenticate_credentials_refused _ _ _ _ _ _ _ _ Hindex Hauth). reflexivity.
  - intros value plain -> -> Hcred. rewrite <- Hcred, Hne.
    rewrite (authenticate_credentials_refused _ _ _ _ _ _ _ _ Hindex Hauth). reflexivity.
Qed.

(** bob is unknown to the chain; the Basic middleware records the refusal. *)
Lemma refused_credentials_swallowed_witness :
  authenticate (TestDouble.self_with []) "bob" "secret" tt
  = (Normal (CbError (HttpError 403 "bad username/password, access denied")), tt)
  /\ basic_middleware TestDouble.runtime (TestDouble.self_with [])
       {| remote_user := None; authorization := Some "Basic bob:secret";
          cookies_token := None; paused := false |} tt
     = (Normal ({| remote_user :=
                     Some (set_error "bad username/password, access denied"
                             buildAnonymousUser);
                   authorization := Some "Basic bob:secret";
                   cookies_token := None; paused := false |}, None), tt).
Proof.
  split; [vm_compute; reflexivity|].
  destruct (refused_credentials_swallowed TestDouble.runtime unit (TestDouble.self_with [])
              {| remote_user := None; authorization := Some "Basic bob:secret";
                 cookies_token := None; paused := false |}
              "bob:secret" 3 (HttpError 403 "bad username/password, access denied") tt tt)
    as (Hbasic & _).
  - reflexivity.
  - reflexivity.
  - vm_compute. reflexivity.
  - apply (Hbasic "Basic bob:secret" "bob:secret"); reflexivity.
Defined.

(** C5, as stated, fails for the Cookie middleware: the credentials of
    the cookie are refused, and the anonymous principal it leaves on the
    request carries no error message. *)
Lemma refused_credentials_counterexample :
  authenticate (TestDouble.self_with []) "bob" "secret" tt
  = (Normal (CbError (HttpError 403 "bad username/password, access denied")), tt)
  /\ cookie_middleware TestDouble.runtime (TestDouble.self_with [])
       {| remote_user := None; authorization := None;
          cookies_token := Some "bob:secret"; paused := false |} tt
     = (Normal ({| remote_user := Some buildAnonymousUser; authorization := None;
                   cookies_token := Some "bob:secret"; paused := false |}, None), tt)
  /\ error buildAnonymousUser = None.
Proof. repeat split; vm_compute; reflexivity. Qed.

(** ** The principals the middlewares attach *)

(** A principal that [authenticate] answers with was built by
    [authenticatedUser] for the user authenticated. *)
Lemma authenticate_next_ok {S} (plugins : list (Plugin.t S)) user password st p st' :
  authenticate_next plugins user password st = (Normal (CbOk p), st') ->
  exists groups, p = authenticatedUser (Some user) groups.
Proof.
  revert st. induction plugins as [|q plugins IH]; intros st; simpl; [discriminate|].
  destruct (Plugin.authenticate q) as [f|]; [|apply IH].
  destruct (f user password st) as [[[err|] groups] st1]; [discriminate|].
  destruct (not_nullish groups && negb (loose_eq_false groups)); [|apply IH].
  intros H. injection H as <- _. eauto.
Qed.

(** The ways out of the shared tail of the Basic and Cookie middlewares. *)
Lemma authenticate_credentials_outcome {S}
    (next : Request -> option js_error -> completion continued)
    (self : Self.t S) (req : Request) (credentials : string) (st : S) :
  let out := fst (authenticate_credentials next self req credentials st) in
  out = next req None
  \/ (exists user groups,
         out = next (set_remote_user (authenticatedUser (Some user) groups) req) None)
  \/ (exists err, out = next (set_remote_user buildAnonymousUser req) (Some err))
  \/ (exists e, out = Throw e).
Proof.
  unfold authenticate_credentials.
  destruct (JsString.indexOf ":" credentials) as [index|]; [|left; reflexivity].
  destruct (authenticate self _ _ st) as [[[err|p]|e] st1] eqn:Hauth; simpl.
  - right. right. left. eauto.
  - right. left. apply authenticate_next_ok in Hauth as [groups ->]. eauto.
  - right. right. right. eauto.
Qed.

(** What the three [next] functions leave on the request. *)
Lemma basic_next_user (req : Request) (user : Principal) (err : option js_error) req' e :
  remote_user req = Some user ->
  basic_next req err = Normal (req', e) ->
  e = None
  /\ (remote_user req' = Some user
      \/ exists msg, remote_user req' = Some (set_error msg user)).
Proof.
  intros Huser. unfold basic_next. destruct err as [err|]; simpl.
  - rewrite Huser. intros H. injection H as <- <-. split; [reflexivity|]. right. eauto.
  - intros H. injection H as <- <-. split; [reflexivity|]. left. exact Huser.
Qed.

Lemma cookie_next_user (req : Request) (err : option js_error) req' e :
  cookie_next req err = Normal (req', e) ->
  e = None /\ remote_user req' = remote_user req.
Proof. unfold cookie_next. intros H. injection H as <- <-. split; reflexivity. Qed.

Lemma bearer_next_user (req : Request) (err : option js_error) req' e :
  bearer_next req err = Normal (req', e) ->
  e = err /\ remote_user req' = remote_user req.
Proof. unfold bearer_next. intros H. injection H as <- <-. split; reflexivity. Qed.

Section Attached.
Context (P : platform) {S : Type} (self : Self.t S).

Lemma basic_middleware_attaches (req : Request) (st : S) req' e st' :
  has_named_user req = false ->
  basic_middleware P self req st = (Normal (req', e), st') ->
  remote_user req' = Some buildAnonymousUser
  \/ (exists msg, remote_user req' = Some (set_error msg buildAnonymousUser))
  \/ (exists user groups, remote_user req' = Some (authenticatedUser (Some user) groups)).
Proof.
  intros Hnamed. unfold basic_middleware.
  change (has_named_user (pause req)) with (has_named_user req). rewrite Hnamed.
  change (authorization (set_remote_user buildAnonymousUser (pause req)))
    with (authorization req).
  set (anon := set_remote_user buildAnonymousUser (pause req)).
  assert (Hnext : forall err out st1,
             (basic_next anon err, st1) = (Normal out, st') ->
             remote_user out.1 = Some buildAnonymousUser
             \/ exists msg, remote_user out.1 = Some (set_error msg buildAnonymousUser)).
  { intros err [r x] st1 H. injection H as H _.
    destruct (basic_next_user anon buildAnonymousUser err r x eq_refl H) as [_ [Hr|Hr]]; auto. }
  assert (Htail : forall credentials,
             authenticate_credentials basic_next self anon credentials st
             = (Normal (req', e), st') ->
             remote_user req' = Some buildAnonymousUser
             \/ (exists msg, remote_user req' = Some (set_error msg buildAnonymousUser))
             \/ (exists user groups,
                    remote_user req' = Some (authenticatedUser (Some user) groups))).
  { intros credentials H.
    pose proof (authenticate_credentials_outcome basic_next self anon credentials st) as Hout.
    rewrite H in Hout. cbn [fst] in Hout.
    destruct Hout as [Hout|[(user & groups & Hout)|[(err & Hout)|(x & Hout)]]].
    - symmetry in Hout.
      destruct (basic_next_user anon buildAnonymousUser _ _ _ eq_refl Hout) as [_ [Hr|Hr]];
        auto.
    - injection Hout as -> _. right. right. eauto.
    - symmetry in Hout.
      destruct (basic_next_user (set_remote_user buildAnonymousUser anon)
                  buildAnonymousUser _ _ _ eq_refl Hout) as [_ [Hr|Hr]];
        auto.
    - discriminate Hout. }
  destruct (authorization req) as [header|].
  - destruct (JsString.split " " header) as [|scheme [|value [|x l]]];
      try (intros H; destruct (Hnext _ _ _ H) as [Hr|Hr]; simpl in Hr; auto).
    destruct (String.eqb scheme "Basic"); [apply Htail|].
    destruct (String.eqb scheme "Bearer");
      [|intros H; destruct (Hnext _ _ _ H) as [Hr|Hr]; simpl in Hr; auto].
    destruct (aes_decrypt P (Self.secret self) (base64_decode P value)) as [plain|x];
      [|discriminate].
    destruct (String.eqb (utf8_decode P plain) ""); [|apply Htail].
    intros H; destruct (Hnext _ _ _ H) as [Hr|Hr]; simpl in Hr; auto.
  - intros H; destruct (Hnext _ _ _ H) as [Hr|Hr]; simpl in Hr; auto.
Qed.

Lemma cookie_middleware_attaches (req : Request) (st : S) req' e st' :
  has_named_user req = false ->
  cookie_middleware P self req st = (Normal (req', e), st') ->
  remote_user req' = Some buildAnonymousUser
  \/ (exists user groups, remote_user req' = Some (authenticatedUser (Some user) groups)).
Proof.
  intros Hnamed. unfold cookie_middleware.
  change (has_named_user (pause req)) with (has_named_user req). rewrite Hnamed.
  change (cookies_token (set_remote_user buildAnonymousUser (pause req)))
    with (cookies_token req).
  set (anon := set_remote_user buildAnonymousUser (pause req)).
  assert (Hnext : forall err st1,
             (cookie_next anon err, st1) = (Normal (req', e), st') ->
             remote_user req' = Some buildAnonymousUser).
  { intros err st1 H. injection H as <- _ _. reflexivity. }
  destruct (cookies_token req) as [value|]; [|intros H; left; exact (Hnext _ _ H)].
  destruct (aes_decrypt P (Self.secret self) (base64_decode P value)) as [plain|x];
    [|discriminate].
  destruct (String.eqb (utf8_decode P plain) ""); [intros H; left; exact (Hnext _ _ H)|].
  intros H.
  pose proof (authenticate_credentials_outcome cookie_next self anon
                (utf8_decode P plain) st) as Hout.
  rewrite H in Hout. cbn [fst] in Hout.
  destruct Hout as [Hout|[(user & groups & Hout)|[(err & Hout)|(x & Hout)]]].
  - injection Hout as -> _. left. reflexivity.
  - injection Hout as -> _. right. eauto.
  - injection Hout as -> _. left. reflexivity.
  - discriminate Hout.
Qed.

Lemma bearer_middleware_attaches (req : Request) (now : Z) req' e :
  has_named_user req = false ->
  bearer_middleware P self req now = Normal (req', e) ->
  remote_user req' = Some buildAnonymousUser
  \/ (exists tok o,
         remote_user req'
         = Some (set_token tok (authenticatedUser (Payload.u o) (payload_field_g o)))).
Proof.
  intros Hnamed. unfold bearer_middleware.
  change (has_named_user (pause req)) with (has_named_user req). rewrite Hnamed.
  cbn [authorization set_remote_user pause].
  destruct (authorization req) as [header|]; [|intros H; injection H as <- _; auto].
  destruct (JsString.split " " header) as [|scheme [|tok [|x l]]];
    try (intros H; injection H as <- _; auto).
  destruct (negb (String.eqb scheme "Bearer")); [intros H; injection H as <- _; auto|].
  destruct (decode_token P (Self.secret self) tok None now) as [o|err].
  - intros H; injection H as <- _. right. eauto.
  - intros H; injection H as <- _. auto.
Qed.

End Attached.

(** C10.  The anonymous principal has exactly the seven groups $all,
    $anonymous, @all, @anonymous, all, undefined and anonymous, with or
    without an error message recorded on it.  On a request that came
    without a named principal, each of the three middlewares leaves
    either that principal (the Basic one possibly with a message) or a
    principal built by [authenticatedUser].  And for a principal with
    these seven groups the deny-all provider answers true to
    [allow_access] and to [allow_publish] whenever the list of the
    package for that action contains one of the seven. *)
Theorem anonymous_principal_groups (P : platform) (S : Type) (self : Self.t S) :
  let seven := ["$all"; "$anonymous"; "@all"; "@anonymous"; "all"; "undefined"; "anonymous"] in
  groups buildAnonymousUser = seven
  /\ (forall msg, groups (set_error msg buildAnonymousUser) = seven)
  /\ (forall req st req' e st',
         has_named_user req = false ->
         basic_middleware P self req st = (Normal (req', e), st') ->
         remote_user req' = Some buildAnonymousUser
         \/ (exists msg, remote_user req' = Some (set_error msg buildAnonymousUser))
         \/ (exists user groups,
                remote_user req' = Some (authenticatedUser (Some user) groups)))
  /\ (forall req st req' e st',
         has_named_user req = false ->
         cookie_middleware P self req st = (Normal (req', e), st') ->
         remote_user req' = Some buildAnonymousUser
         \/ (exists user groups,
                remote_user req' = Some (authenticatedUser (Some user) groups)))
  /\ (forall req now req' e,
         has_named_user req = false ->
         bearer_middleware P self req now = Normal (req', e) ->
         remote_user req' = Some buildAnonymousUser
         \/ (exists tok o,
                remote_user req'
                = Some (set_token tok (authenticatedUser (Payload.u o) (payload_field_g o)))))
  /\ (forall (action : Action) (user : Principal) (pkg : Package) (group : string) (st : S),
         groups user = seven ->
         group ∈ seven ->
         group ∈ acl action pkg ->
         exists f, allow_method action deny_all_plugin = Some f
                   /\ f user pkg st = ((None, Some true), st)).
Proof.
  intros seven. split; [reflexivity|]. split; [reflexivity|].
  split; [apply basic_middleware_attaches|].
  split; [apply cookie_middleware_attaches|].
  split; [apply bearer_middleware_attaches|].
  intros action user pkg group st Hgroups Hin Hacl.
  exists (allow_action action). split; [apply deny_all_allow_method|].
  apply allow_action_allowed. exists group. rewrite Hgroups. auto.
Qed.

(** A package whose access list names the group undefined is open to the
    anonymous principal. *)
Lemma anonymous_principal_groups_witness :
  let pkg := {| pkg_name := "legacy"; pkg_access := ["maintainers"; "undefined"];
                pkg_publish := ["maintainers"] |} in
  exists f, Plugin.allow_access (deny_all_plugin (S:=unit)) = Some f
            /\ f buildAnonymousUser pkg tt = ((None, Some true), tt).
Proof.
  intros pkg.
  destruct (anonymous_principal_groups TestDouble.runtime unit (TestDouble.self_with []))
    as (_ & _ & _ & _ & _ & Hallow).
  apply (Hallow access buildAnonymousUser pkg "undefined" tt).
  - reflexivity.
  - repeat constructor.
  - repeat constructor.
Defined.

(** * Further properties *)

(** ** Chains without a verdict *)

(** X2.  A walk that finds no verdict runs off the end of the list: when
    every provider of the list lacks the operation or calls back with an
    empty value, each of the four operations throws a TypeError and never
    calls its callback.  The empty list is the first case. *)
Theorem exhausted_chain_throws {S : Type} (self : Self.t S) (plugins : list (Plugin.t S))
    (user password : string) (principal : Principal) (pkg : Package) (st st1 : S) :
  (passed_over Plugin.authenticate empty_groups user password plugins st st1 ->
   authenticate_next plugins user password st = (Throw shift_undefined, st1))
  /\ (passed_over adduser_method empty_ok user password plugins st st1 ->
      add_user_next self plugins user password st = (Throw shift_undefined, st1))
  /\ (passed_over Plugin.allow_access empty_ok principal pkg plugins st st1 ->
      allow_access_next plugins principal pkg st = (Throw shift_undefined, st1))
  /\ (passed_over Plugin.allow_publish empty_ok principal pkg plugins st st1 ->
      allow_publish_next plugins principal pkg st = (Throw shift_undefined, st1)).
Proof.
  split; [|split; [|split]]; intros Hpre.
  - rewrite authenticate_next_walk, <- (app_nil_r plugins).
    exact (walk_passed_over _ _ _ _ empty_groups_fail _ [] _ _ _ _ Hpre).
  - rewrite add_user_next_walk, <- (app_nil_r plugins).
    exact (walk_passed_over _ _ _ _ empty_ok_fails _ [] _ _ _ _ Hpre).
  - rewrite allow_access_next_walk, <- (app_nil_r plugins).
    exact (walk_passed_over _ _ _ _ empty_ok_fails _ [] _ _ _ _ Hpre).
  - rewrite allow_publish_next_walk, <- (app_nil_r plugins).
    exact (walk_passed_over _ _ _ _ empty_ok_fails _ [] _ _ _ _ Hpre).
Qed.

(** A list with only the registrar has no provider for [allow_access]. *)
Lemma exhausted_chain_throws_witness :
  allow_access_next [TestDouble.registrar] TestDouble.mallory
    (package_of (TestDouble.self_with []) "private") tt
  = (Throw shift_undefined, tt).
Proof.
  destruct (exhausted_chain_throws (TestDouble.self_with []) [TestDouble.registrar]
              "bob" "pw" TestDouble.mallory
              (package_of (TestDouble.self_with []) "private") tt tt)
    as (_ & _ & Haccess & _).
  apply Haccess. apply passed_skip; [reflexivity|constructor].
Defined.

(** ** The static provider in the chain of [Auth] *)

Lemma static_authenticate (P : platform) {S : Type} (config : Config.t)
    (user password : string) (st : S) :
  exists f, Plugin.authenticate (static_plugin P config) = Some f
            /\ f user password st
               = ((None, if static_matches P config user password
                         then JArray [user] else JUndefined), st).
Proof.
  eexists. split; [reflexivity|]. unfold static_matches. simpl.
  destruct (Config.users config) as [users|]; [|reflexivity].
  destruct (users !! user) as [entry|]; [|reflexivity].
  destruct (String.eqb _ _); reflexivity.
Qed.

Lemma static_adduser_eq (P : platform) {S : Type} (config : Config.t)
    (user password : string) (st : S) :
  exists f, Plugin.adduser (static_plugin P config) = Some f
            /\ f user password st
               = (if static_knows config user
                  then (Some (HttpError 403 "this user already exists"), None)
                  else (None, None), st).
Proof.
  eexists. split; [reflexivity|]. unfold static_knows. simpl.
  destruct (Config.users config) as [users|]; [|reflexivity].
  destruct (truthy_entry users user); reflexivity.
Qed.

(** What [authenticate] does at the head of the chain of [Auth]. *)
Lemma Auth_authenticate_head (P : platform) {S : Type} (config : Config.t)
    (loaded : list (Plugin.t S)) (user password : string) (st : S) :
  authenticate (Auth P config loaded) user password st
  = if static_matches P config user password && negb (ToNumber.is_zero user)
    then (Normal (CbOk (authenticatedUser (Some user) (JArray [user]))), st)
    else authenticate_next (loaded ++ [deny_all_plugin]) user password st.
Proof.
  unfold authenticate.
  change (Self.plugins (Auth P config loaded))
    with (static_plugin P config :: loaded ++ [deny_all_plugin]).
  destruct (static_authenticate P config user password st) as (f & Hf & Hcall).
  cbn [authenticate_next]. rewrite Hf, Hcall.
  destruct (static_matches P config user password); reflexivity.
Qed.

(** X3.  The static provider is consulted before every loaded one.  A
    user of the table who gives the password whose SHA-1 digest the
    table holds, and whose name does not read as the number zero, is
    authenticated into the one group of that name whatever the loaded
    providers are, and no provider state changes.  In every other case
    (no table, no entry for the user, another password, or a name that
    reads as zero) the static provider has no say, and the answer is
    that of the loaded providers followed by the deny-all one. *)
Theorem static_provider_first (P : platform) (S : Type) (config : Config.t)
    (loaded : list (Plugin.t S)) (user password : string) (st : S) :
  let self := Auth P config loaded in
  (static_matches P config user password = true ->
   ToNumber.is_zero user = false ->
   authenticate self user password st
   = (Normal (CbOk (authenticatedUser (Some user) (JArray [user]))), st))
  /\ (static_matches P config user password = false \/ ToNumber.is_zero user = true ->
      authenticate self user password st
      = authenticate_next (loaded ++ [deny_all_plugin]) user password st).
Proof.
  intros self. subst self. rewrite Auth_authenticate_head. split.
  - intros -> ->. reflexivity.
  - intros [->| ->]; [reflexivity|]. rewrite andb_false_r. reflexivity.
Qed.

(** alice logs in although a loaded provider would put everyone in dev;
    with a wrong password she gets what that provider says. *)
Lemma static_provider_first_witness :
  authenticate (TestDouble.self_with [TestDouble.one_group "dev"]) "alice" "pw" tt
  = (Normal (CbOk (authenticatedUser (Some "alice") (JArray ["alice"]))), tt)
  /\ authenticate (TestDouble.self_with [TestDouble.one_group "dev"]) "alice" "wrong" tt
     = (Normal (CbOk (authenticatedUser (Some "alice") (JArray ["dev"]))), tt).
Proof.
  destruct (static_provider_first TestDouble.runtime unit TestDouble.config
              [TestDouble.one_group "dev"] "alice" "pw" tt) as [Hfirst _].
  destruct (static_provider_first TestDouble.runtime unit TestDouble.config
              [TestDouble.one_group "dev"] "alice" "wrong" tt) as [_ Hfall].
  split.
  - apply Hfirst; vm_compute; reflexivity.
  - unfold TestDouble.self_with. rewrite Hfall by (left; vm_compute; reflexivity).
    vm_compute. reflexivity.
Defined.

(** X4.  With no loaded provider, [authenticate] succeeds exactly for the
    users of the table that give the right password (and whose name
    does not read as zero); everyone else gets the 403 error "bad
    username/password, access denied" of the deny-all provider. *)
Theorem default_chain_authenticate (P : platform) (S : Type) (config : Config.t)
    (user password : string) (st : S) :
  authenticate (Auth P config []) user password st
  = if static_matches P config user password && negb (ToNumber.is_zero user)
    then (Normal (CbOk (authenticatedUser (Some user) (JArray [user]))), st)
    else (Normal (CbError (HttpError 403 "bad username/password, access denied")), st).
Proof. rewrite Auth_authenticate_head. reflexivity. Qed.

(** X5.  Registration through the chain of [Auth].  A name that the
    static table answers to (an entry of [config.users], or a name that
    every object inherits, such as constructor or toString) is refused
    with the 403 error "this user already exists" before any loaded
    provider is asked; and with no loaded provider every other name,
    and every name when there is no table, is refused with the 409
    error "registration is disabled".  No provider state changes in
    either case. *)
Theorem static_registration (P : platform) (S : Type) (config : Config.t)
    (loaded : list (Plugin.t S)) (user password : string) (st : S) :
  (static_knows config user = true ->
   add_user (Auth P config loaded) user password st
   = (Normal (CbError (HttpError 403 "this user already exists")), st))
  /\ (static_knows config user = false ->
      add_user (Auth P config []) user password st
      = (Normal (CbError (HttpError 409 "registration is disabled")), st)).
Proof.
  unfold add_user.
  change (Self.plugins (Auth P config loaded))
    with (static_plugin P config :: loaded ++ [deny_all_plugin]).
  change (Self.plugins (Auth P config []))
    with [static_plugin (S:=S) P config; deny_all_plugin].
  destruct (static_adduser_eq P config user password st) as (f & Hf & Hcall).
  assert (Hm : adduser_method (static_plugin (S:=S) P config) = Some f).
  { unfold adduser_method. rewrite Hf. reflexivity. }
  cbn [add_user_next]. rewrite !Hm, !Hcall. split; intros ->; reflexivity.
Qed.

(** alice is in the table and toString is inherited: both are refused
    although a loaded provider would register anyone; bob is neither,
    and without a loaded provider registration is disabled for him. *)
Lemma static_registration_witness :
  add_user (TestDouble.self_with [TestDouble.registrar]) "alice" "new" tt
  = (Normal (CbError (HttpError 403 "this user already exists")), tt)
  /\ add_user (TestDouble.self_with [TestDouble.registrar]) "toString" "pw" tt
     = (Normal (CbError (HttpError 403 "this user already exists")), tt)
  /\ add_user (TestDouble.self_with []) "bob" "pw" tt
     = (Normal (CbError (HttpError 409 "registration is disabled")), tt).
Proof.
  split; [|split].
  - refine (proj1 (static_registration TestDouble.runtime unit TestDouble.config
                     [TestDouble.registrar] "alice" "new" tt) _).
    vm_compute. reflexivity.
  - refine (proj1 (static_registration TestDouble.runtime unit TestDouble.config
                     [TestDouble.registrar] "toString" "pw" tt) _).
    vm_compute. reflexivity.
  - refine (proj2 (static_registration TestDouble.runtime unit TestDouble.config
                     [TestDouble.registrar] "bob" "pw" tt) _).
    vm_compute. reflexivity.
Defined.

(** ** The three middlewares, on every path *)

Section Paths.
Context (P : platform) {S : Type} (self : Self.t S).

(** Every way through the shared tail ends in [next], on the request as
    given but for its principal, or in the exception of [authenticate]. *)
Lemma authenticate_credentials_shape
    (next : Request -> option js_error -> completion continued)
    (req : Request) (credentials : string) (st : S) :
  let out := (authenticate_credentials next self req credentials st).1 in
  (exists r err, out = next r err /\ same_credentials req r /\ paused r = paused req
                 /\ (is_Some err -> is_Some (remote_user r))
                 /\ (remote_user r = remote_user req
                     \/ remote_user r = Some buildAnonymousUser
                     \/ exists user groups,
                         remote_user r = Some (authenticatedUser (Some user) groups)))
  \/ (exists user pass e st1, authenticate self user pass st = (Throw e, st1) /\ out = Throw e).
Proof.
  unfold authenticate_credentials.
  destruct (JsString.indexOf ":" credentials) as [index|].
  - destruct (authenticate self _ _ st) as [[[err|p]|e] st1] eqn:Hauth; cbn [fst].
    + left. exists (set_remote_user buildAnonymousUser req), (Some err).
      repeat split; eauto.
    + left. exists (set_remote_user p req), None.
      apply authenticate_next_ok in Hauth as [groups ->].
      repeat split; eauto.
    + right. eexists _, _, _, _. split; [exact Hauth|reflexivity].
  - left. exists req, None. repeat split; auto. intros [x Hx]. discriminate Hx.
Qed.

(** The Basic middleware ends in its [next], on the request as given but
    for the pause and the principal, or in the exception of
    [authenticate]. *)
Lemma basic_middleware_shape (req : Request) (st : S) :
  let out := (basic_middleware P self req st).1 in
  (exists r err, out = basic_next r err /\ same_credentials req r /\ paused r = true
                 /\ (is_Some err -> is_Some (remote_user r)))
  \/ (exists user pass e st1, authenticate self user pass st = (Throw e, st1) /\ out = Throw e).
Proof.
  unfold basic_middleware.
  change (has_named_user (pause req)) with (has_named_user req).
  destruct (has_named_user req).
  { left. exists (pause req), None. repeat split. intros [x Hx]. discriminate Hx. }
  change (authorization (set_remote_user buildAnonymousUser (pause req)))
    with (authorization req).
  set (anon := set_remote_user buildAnonymousUser (pause req)).
  assert (Hnext : forall err, exists r err',
             basic_next anon err = basic_next r err' /\ same_credentials req r
             /\ paused r = true /\ (is_Some err' -> is_Some (remote_user r))).
  { intros err. exists anon, err. repeat split. intros _. eexists. reflexivity. }
  assert (Htail : forall credentials,
             let out := (authenticate_credentials basic_next self anon credentials st).1 in
             (exists r err, out = basic_next r err /\ same_credentials req r /\ paused r = true
                            /\ (is_Some err -> is_Some (remote_user r)))
             \/ (exists user pass e st1,
                    authenticate self user pass st = (Throw e, st1) /\ out = Throw e)).
  { intros credentials.
    destruct (authenticate_credentials_shape basic_next anon credentials st)
      as [(r & err & Hout & [Ha Hc] & Hp & Hsome & _)|Hthrow]; [left|right; exact Hthrow].
    exists r, err. repeat split; auto. }
  destruct (authorization req) as [header|]; [|left; apply Hnext].
  destruct (JsString.split " " header) as [|scheme [|value [|x l]]];
    try solve [left; apply Hnext].
  destruct (String.eqb scheme "Basic"); [apply Htail|].
  destruct (String.eqb scheme "Bearer"); [|left; apply Hnext].
  rewrite aes_decrypt_total.
  destruct (aes_decrypt_body P (Self.secret self) (base64_decode P value)) as [plain|x].
  - destruct (String.eqb (utf8_decode P plain) ""); [left; apply Hnext|apply Htail].
  - destruct (String.eqb (utf8_decode P []) ""); [left; apply Hnext|apply Htail].
Qed.

Lemma cookie_middleware_shape (req : Request) (st : S) :
  let out := (cookie_middleware P self req st).1 in
  (exists r err, out = cookie_next r err /\ same_credentials req r /\ paused r = true)
  \/ (exists user pass e st1, authenticate self user pass st = (Throw e, st1) /\ out = Throw e).
Proof.
  unfold cookie_middleware.
  change (has_named_user (pause req)) with (has_named_user req).
  destruct (has_named_user req).
  { left. exists (pause req), None. repeat split. }
  change (cookies_token (set_remote_user buildAnonymousUser (pause req)))
    with (cookies_token req).
  set (anon := set_remote_user buildAnonymousUser (pause req)).
  assert (Hnext : forall err, exists r err',
             cookie_next anon err = cookie_next r err' /\ same_credentials req r
             /\ paused r = true).
  { intros err. exists anon, err. repeat split. }
  assert (Htail : forall credentials,
             let out := (authenticate_credentials cookie_next self anon credentials st).1 in
             (exists r err, out = cookie_next r err /\ same_credentials req r /\ paused r = true)
             \/ (exists user pass e st1,
                    authenticate self user pass st = (Throw e, st1) /\ out = Throw e)).
  { intros credentials.
    destruct (authenticate_credentials_shape cookie_next anon credentials st)
      as [(r & err & Hout & [Ha Hc] & Hp & _)|Hthrow]; [left|right; exact Hthrow].
    exists r, err. repeat split; auto. }
  destruct (cookies_token req) as [value|]; [|left; apply Hnext].
  rewrite aes_decrypt_total.
  destruct (aes_decrypt_body P (Self.secret self) (base64_decode P value)) as [plain|x].
  - destruct (String.eqb (utf8_decode P plain) ""); [left; apply Hnext|apply Htail].
  - destruct (String.eqb (utf8_decode P []) ""); [left; apply Hnext|apply Htail].
Qed.

(** The Bearer middleware ends in its [next]; the error it hands over, if
    any, is the 400 of a malformed header or what [decode_token] threw. *)
Lemma bearer_middleware_shape (req : Request) (now : Z) :
  exists r err,
    bearer_middleware P self req now = bearer_next r err
    /\ same_credentials req r /\ paused r = true
    /\ (err = None
        \/ err = Some (HttpError 400 "bad authorization header")
        \/ exists tok, decode_token P (Self.secret self) tok None now = Throw (default (TypeError "") err)
                       /\ is_Some err).
Proof.
  unfold bearer_middleware.
  change (has_named_user (pause req)) with (has_named_user req).
  destruct (has_named_user req).
  { exists (pause req), None. repeat split. auto. }
  change (authorization (set_remote_user buildAnonymousUser (pause req)))
    with (authorization req).
  set (anon := set_remote_user buildAnonymousUser (pause req)).
  destruct (authorization req) as [header|];
    [|(exists anon, None); repeat split; auto].
  destruct (JsString.split " " header) as [|scheme [|tok [|x l]]];
    try solve [(exists anon, (Some (HttpError 400 "bad authorization header")));
               repeat split; auto].
  destruct (negb (String.eqb scheme "Bearer")); [(exists anon, None); repeat split; auto|].
  destruct (decode_token P (Self.secret self) tok None now) as [o|err] eqn:Hdecode.
  - eexists _, None. repeat split; auto.
  - exists anon, (Some err). repeat split. right. right. exists tok. split; eauto.
Qed.

End Paths.

Lemma basic_next_resumes (r : Request) (err : option js_error) (req' : Request) e :
  basic_next r err = Normal (req', e) ->
  paused req' = false /\ same_credentials r req' /\ e = None.
Proof.
  unfold basic_next. destruct err as [err|]; cbn.
  - destruct (remote_user r); [|discriminate]. intros H. injection H as <- <-.
    repeat split.
  - intros H. injection H as <- <-. repeat split.
Qed.

Lemma same_credentials_trans (a b c : Request) :
  same_credentials a b -> same_credentials b c -> same_credentials a c.
Proof. intros [H1 H2] [H3 H4]. split; congruence. Qed.

(** X6.  Whatever path a middleware takes, when it calls the
    continuation the request has been resumed and still carries the
    Authorization header and the cookie it came with. *)
Theorem middlewares_resume (P : platform) (S : Type) (self : Self.t S) (req req' : Request)
    (e : option js_error) (st st' : S) (now : Z) :
  (basic_middleware P self req st = (Normal (req', e), st') ->
   paused req' = false /\ same_credentials req req')
  /\ (cookie_middleware P self req st = (Normal (req', e), st') ->
      paused req' = false /\ same_credentials req req')
  /\ (bearer_middleware P self req now = Normal (req', e) ->
      paused req' = false /\ same_credentials req req').
Proof.
  split; [|split]; intros H.
  - destruct (basic_middleware_shape P self req st)
      as [(r & err & Hout & Hsame & _)|(user & pass & x & st1 & _ & Hout)];
      rewrite H in Hout; cbn [fst] in Hout; [|discriminate Hout].
    symmetry in Hout. destruct (basic_next_resumes _ _ _ _ Hout) as (Hp & Hs & _).
    split; [exact Hp|]. exact (same_credentials_trans _ _ _ Hsame Hs).
  - destruct (cookie_middleware_shape P self req st)
      as [(r & err & Hout & Hsame & _)|(user & pass & x & st1 & _ & Hout)];
      rewrite H in Hout; cbn [fst] in Hout; [|discriminate Hout].
    injection Hout as -> _. split; [reflexivity|exact Hsame].
  - destruct (bearer_middleware_shape P self req now) as (r & err & Hout & Hsame & _).
    rewrite H in Hout. injection Hout as -> _. split; [reflexivity|exact Hsame].
Qed.

(** alice logs in with a Basic header; the request goes on resumed, with
    its header and cookie. *)
Lemma middlewares_resume_witness :
  exists req' e,
    basic_middleware TestDouble.runtime (TestDouble.self_with [])
      (Fixtures.fresh (Some "Basic alice:pw") (Some "c")) tt = (Normal (req', e), tt)
    /\ paused req' = false
    /\ same_credentials (Fixtures.fresh (Some "Basic alice:pw") (Some "c")) req'.
Proof.
  eexists _, _. split; [vm_compute; reflexivity|].
  refine (proj1 (middlewares_resume TestDouble.runtime unit (TestDouble.self_with [])
                   (Fixtures.fresh (Some "Basic alice:pw") (Some "c")) _ None tt tt 0) _).
  vm_compute. reflexivity.
Defined.

(** X7.  The Basic and the Cookie middleware never hand an error to the
    continuation, whatever the request; the Bearer middleware hands over
    nothing, the 400 error of a malformed header, or an error that
    [decode_token] threw. *)
Theorem middleware_errors (P : platform) (S : Type) (self : Self.t S) (req req' : Request)
    (e : option js_error) (st st' : S) (now : Z) :
  (basic_middleware P self req st = (Normal (req', e), st') -> e = None)
  /\ (cookie_middleware P self req st = (Normal (req', e), st') -> e = None)
  /\ (bearer_middleware P self req now = Normal (req', e) ->
      e = None
      \/ e = Some (HttpError 400 "bad authorization header")
      \/ exists tok err, e = Some err
                         /\ decode_token P (Self.secret self) tok None now = Throw err).
Proof.
  split; [|split]; intros H.
  - destruct (basic_middleware_shape P self req st)
      as [(r & err & Hout & _)|(user & pass & x & st1 & _ & Hout)];
      rewrite H in Hout; cbn [fst] in Hout; [|discriminate Hout].
    symmetry in Hout. apply (basic_next_resumes _ _ _ _ Hout).
  - destruct (cookie_middleware_shape P self req st)
      as [(r & err & Hout & _)|(user & pass & x & st1 & _ & Hout)];
      rewrite H in Hout; cbn [fst] in Hout; [|discriminate Hout].
    injection Hout as _ ->. reflexivity.
  - destruct (bearer_middleware_shape P self req now) as (r & err & Hout & _ & _ & Herr).
    rewrite H in Hout. injection Hout as _ ->.
    destruct Herr as [->|[->|(tok & Hdecode & [x ->])]]; auto.
    right. right. exists tok, x. auto.
Qed.

(** A header without a space is malformed; the Basic middleware keeps the
    400 error to itself. *)
Lemma middleware_errors_witness :
  exists req' e,
    basic_middleware TestDouble.runtime (TestDouble.self_with [])
      (Fixtures.fresh (Some "malformed") None) tt = (Normal (req', e), tt)
    /\ error <$> remote_user req' = Some (Some "bad authorization header")
    /\ e = None.
Proof.
  eexists _, _. split; [vm_compute; reflexivity|]. split; [reflexivity|].
  refine (proj1 (middleware_errors TestDouble.runtime unit (TestDouble.self_with [])
                   (Fixtures.fresh (Some "malformed") None) _ _ tt tt 0) _).
  vm_compute. reflexivity.
Defined.

(** X8.  A request that already carries a named principal goes through
    each of the three middlewares untouched: it is resumed, the
    continuation is called without an error, no header or cookie is
    read, no provider is asked and no token is decoded. *)
Theorem named_request_passes (P : platform) (S : Type) (self : Self.t S) (req : Request)
    (st : S) (now : Z) :
  has_named_user req = true ->
  basic_middleware P self req st = (Normal (resume req, None), st)
  /\ cookie_middleware P self req st = (Normal (resume req, None), st)
  /\ bearer_middleware P self req now = Normal (resume req, None).
Proof.
  intros Hnamed. unfold basic_middleware, cookie_middleware, bearer_middleware.
  change (has_named_user (pause req)) with (has_named_user req). rewrite Hnamed.
  repeat split.
Qed.

(** mallory is already known; her wrong Basic header is not looked at. *)
Lemma named_request_passes_witness :
  let req := {| remote_user := Some TestDouble.mallory;
                authorization := Some "Basic mallory:wrong";
                cookies_token := None; paused := false |} in
  basic_middleware TestDouble.runtime (TestDouble.self_with []) req tt
  = (Normal (req, None), tt).
Proof.
  intros req.
  exact (proj1 (named_request_passes TestDouble.runtime unit (TestDouble.self_with [])
                  req tt 0 eq_refl)).
Defined.

(** ** The Authorization header *)

Lemma split_length (c : ascii) (s : string) :
  length (JsString.split c s) = S (occurrences c s).
Proof.
  induction s as [|d s IH]; [reflexivity|]. cbn [JsString.split occurrences].
  destruct (Ascii.eqb c d).
  - cbn. rewrite IH. reflexivity.
  - destruct (JsString.split c s) as [|t ts]; [discriminate IH|]. exact IH.
Qed.

(** X9.  A header is well-formed only with exactly one space.  On a
    request without a named principal, a header with no space or with
    more than one makes the Basic middleware leave the anonymous
    principal with the message "bad authorization header" recorded and
    call the continuation without an error, and makes the Bearer
    middleware call the continuation with that 400 error. *)
Theorem malformed_header (P : platform) (S : Type) (self : Self.t S) (req : Request)
    (header : string) (st : S) (now : Z) :
  has_named_user req = false ->
  authorization req = Some header ->
  occurrences " " header <> 1 ->
  basic_middleware P self req st
  = (Normal (resume (set_remote_user
                       (set_error "bad authorization header" buildAnonymousUser)
                       (pause req)), None), st)
  /\ bearer_middleware P self req now
     = Normal (resume (set_remote_user buildAnonymousUser (pause req)),
               Some (HttpError 400 "bad authorization header")).
Proof.
  intros Hnamed Hheader Hspaces. unfold basic_middleware, bearer_middleware.
  change (has_named_user (pause req)) with (has_named_user req). rewrite Hnamed.
  change (authorization (set_remote_user buildAnonymousUser (pause req)))
    with (authorization req).
  rewrite Hheader. pose proof (split_length " " header) as Hlen.
  destruct (JsString.split " " header) as [|scheme [|value [|x l]]];
    try (split; reflexivity).
  exfalso. apply Hspaces. cbn in Hlen. lia.
Qed.

(** Two spaces after the scheme are one too many. *)
Lemma malformed_header_witness :
  bearer_middleware TestDouble.runtime (TestDouble.self_with [])
    (Fixtures.fresh (Some "Bearer  token") None) 0
  = Normal ({| remote_user := Some buildAnonymousUser;
               authorization := Some "Bearer  token";
               cookies_token := None; paused := false |},
            Some (HttpError 400 "bad authorization header")).
Proof.
  refine (proj2 (malformed_header TestDouble.runtime unit (TestDouble.self_with [])
                   (Fixtures.fresh (Some "Bearer  token") None) "Bearer  token" tt 0
                   eq_refl eq_refl _)).
  vm_compute. discriminate.
Defined.

(** X10.  On a request without a named principal, each middleware leaves
    the request anonymous and calls the continuation without an error
    when it finds nothing to read: no header or no cookie; for the Basic
    middleware a scheme that is neither Basic nor Bearer (the comparison
    is exact, so "basic" is such a scheme); for the Bearer middleware
    any scheme but Bearer, whose token it then does not decode. *)
Theorem nothing_to_read (P : platform) (S : Type) (self : Self.t S) (req : Request)
    (st : S) (now : Z) :
  has_named_user req = false ->
  let anonymous := resume (set_remote_user buildAnonymousUser (pause req)) in
  (authorization req = None ->
   basic_middleware P self req st = (Normal (anonymous, None), st)
   /\ bearer_middleware P self req now = Normal (anonymous, None))
  /\ (cookies_token req = None ->
      cookie_middleware P self req st = (Normal (anonymous, None), st))
  /\ (forall header scheme value,
         authorization req = Some header ->
         JsString.split " " header = [scheme; value] ->
         (scheme <> "Basic" -> scheme <> "Bearer" ->
          basic_middleware P self req st = (Normal (anonymous, None), st))
         /\ (scheme <> "Bearer" ->
             bearer_middleware P self req now = Normal (anonymous, None))).
Proof.
  intros Hnamed anonymous. subst anonymous.
  unfold basic_middleware, bearer_middleware, cookie_middleware.
  change (has_named_user (pause req)) with (has_named_user req). rewrite Hnamed.
  change (authorization (set_remote_user buildAnonymousUser (pause req)))
    with (authorization req).
  change (cookies_token (set_remote_user buildAnonymousUser (pause req)))
    with (cookies_token req).
  split; [|split].
  - intros ->. split; reflexivity.
  - intros ->. reflexivity.
  - intros header scheme value -> ->. split.
    + intros Hbasic Hbearer.
      apply String.eqb_neq in Hbasic, Hbearer. rewrite Hbasic, Hbearer. reflexivity.
    + intros Hbearer. apply String.eqb_neq in Hbearer. rewrite Hbearer. reflexivity.
Qed.

(** A lower-case scheme is no scheme: alice's right password is not
    looked at. *)
Lemma nothing_to_read_witness :
  basic_middleware TestDouble.runtime (TestDouble.self_with [])
    (Fixtures.fresh (Some "basic alice:pw") None) tt
  = (Normal ({| remote_user := Some buildAnonymousUser;
                authorization := Some "basic alice:pw";
                cookies_token := None; paused := false |}, None), tt).
Proof.
  destruct (nothing_to_read TestDouble.runtime unit (TestDouble.self_with [])
              (Fixtures.fresh (Some "basic alice:pw") None) tt 0 eq_refl)
    as (_ & _ & Hscheme).
  destruct (Hscheme "basic alice:pw" "basic" "alice:pw" eq_refl eq_refl) as [Hbasic _].
  apply Hbasic; discriminate.
Defined.

(** ** Credentials *)

Lemma indexOf_first_colon (user pass : string) :
  JsString.includes ":" user = false ->
  JsString.indexOf ":" (user ++ ":" ++ pass) = Some (String.length user).
Proof.
  induction user as [|c user IH]; [reflexivity|]. intros H.
  change (JsString.includes ":" (String c user))
    with (Ascii.eqb ":" c || JsString.includes ":" user) in H.
  apply orb_false_iff in H as [Hc Hu].
  change (JsString.indexOf ":" (String c user ++ ":" ++ pass))
    with (if Ascii.eqb ":" c then Some 0%nat
          else S <$> JsString.indexOf ":" (user ++ ":" ++ pass)).
  rewrite Hc, (IH Hu). reflexivity.
Qed.

Lemma slice_to_append (user rest : string) :
  JsString.slice_to (String.length user) (user ++ rest) = user.
Proof.
  induction user as [|c user IH]; [destruct rest; reflexivity|].
  change (JsString.slice_to (String.length (String c user)) (String c user ++ rest))
    with (String c (JsString.slice_to (String.length user) (user ++ rest))).
  rewrite IH. reflexivity.
Qed.

Lemma slice_from_append (user pass : string) :
  JsString.slice_from (String.length user + 1) (user ++ ":" ++ pass) = pass.
Proof. induction user as [|c user IH]; [reflexivity|exact IH]. Qed.

(** X11.  Credentials are split at their first colon: the user is what
    comes before it, the password everything after it, further colons
    included.  So for a user name without a colon, on a request without
    a named principal, credentials "user:pass" that come in a Basic
    header, encrypted in a Bearer header, or encrypted in the cookie
    make the middleware ask [authenticate] for exactly that user and
    password; the principal it answers with is attached, its error
    leaves the request anonymous. *)
Theorem credentials_reach_authenticate (P : platform) (S : Type) (self : Self.t S)
    (req : Request) (user pass : string) (st : S) :
  has_named_user req = false ->
  JsString.includes ":" user = false ->
  let credentials := (user ++ ":" ++ pass)%string in
  let outcome (next : Request -> option js_error -> completion continued) :=
    match authenticate self user pass st with
    | (Throw e, st1) => (Throw e, st1)
    | (Normal (CbOk p), st1) => (next (set_remote_user p (pause req)) None, st1)
    | (Normal (CbError err), st1) =>
        (next (set_remote_user buildAnonymousUser (pause req)) (Some err), st1)
    end in
  (forall header value,
      authorization req = Some header ->
      JsString.split " " header = ["Basic"; value] ->
      utf8_decode P (base64_decode P value) = credentials ->
      basic_middleware P self req st = outcome basic_next)
  /\ (forall header value plain,
         authorization req = Some header ->
         JsString.split " " header = ["Bearer"; value] ->
         aes_decrypt P (Self.secret self) (base64_decode P value) = Normal plain ->
         utf8_decode P plain = credentials ->
         basic_middleware P self req st = outcome basic_next)
  /\ (forall value plain,
         cookies_token req = Some value ->
         aes_decrypt P (Self.secret self) (base64_decode P value) = Normal plain ->
         utf8_decode P plain = credentials ->
         cookie_middleware P self req st = outcome cookie_next).
Proof.
  intros Hnamed Hcolon credentials outcome.
  assert (Htail : forall next,
             authenticate_credentials next self
               (set_remote_user buildAnonymousUser (pause req)) credentials st
             = outcome next).
  { intros next. unfold authenticate_credentials, outcome, credentials.
    rewrite (indexOf_first_colon user pass Hcolon), slice_to_append, slice_from_append.
    destruct (authenticate self user pass st) as [[[err|p]|e] st1]; reflexivity. }
  assert (Hne : String.eqb credentials "" = false).
  { apply (indexOf_not_empty ":" _ _ (indexOf_first_colon user pass Hcolon)). }
  unfold basic_middleware, cookie_middleware.
  change (has_named_user (pause req)) with (has_named_user req). rewrite Hnamed.
  change (authorization (set_remote_user buildAnonymousUser (pause req)))
    with (authorization req).
  change (cookies_token (set_remote_user buildAnonymousUser (pause req)))
    with (cookies_token req).
  split; [|split].
  - intros header value -> -> ->. cbn. apply Htail.
  - intros header value plain -> -> -> ->. cbn. rewrite Hne. apply Htail.
  - intros value plain -> -> ->. rewrite Hne. apply Htail.
Qed.

(** A password with colons in it: alice gives "pw:with:colons", and that
    whole password is what the chain refuses. *)
Lemma credentials_reach_authenticate_witness :
  authenticate (TestDouble.self_with []) "alice" "pw:with:colons" tt
  = (Normal (CbError (HttpError 403 "bad username/password, access denied")), tt)
  /\ basic_middleware TestDouble.runtime (TestDouble.self_with [])
       (Fixtures.fresh (Some "Basic alice:pw:with:colons") None) tt
     = (basic_next (set_remote_user buildAnonymousUser
                      (pause (Fixtures.fresh (Some "Basic alice:pw:with:colons") None)))
          (Some (HttpError 403 "bad username/password, access denied")), tt).
Proof.
  split; [vm_compute; reflexivity|].
  destruct (credentials_reach_authenticate TestDouble.runtime unit (TestDouble.self_with [])
              (Fixtures.fresh (Some "Basic alice:pw:with:colons") None)
              "alice" "pw:with:colons" tt eq_refl eq_refl) as [Hbasic _].
  rewrite (Hbasic "Basic alice:pw:with:colons" "alice:pw:with:colons"
             eq_refl eq_refl eq_refl).
  vm_compute. reflexivity.
Defined.

(** ** Middlewares over the chain of [Auth] *)

(** X12.  Over a facade built by [Auth], whatever providers were loaded,
    the Basic and the Cookie middleware always call the continuation:
    no request makes them throw.  The Bearer middleware calls it over
    any facade. *)
Theorem middlewares_always_continue (P : platform) (S : Type) (config : Config.t)
    (loaded : list (Plugin.t S)) (self : Self.t S) (req : Request) (st : S) (now : Z) :
  (exists out, (basic_middleware P (Auth P config loaded) req st).1 = Normal out)
  /\ (exists out, (cookie_middleware P (Auth P config loaded) req st).1 = Normal out)
  /\ (exists out, bearer_middleware P self req now = Normal out).
Proof.
  assert (Hauth : forall user pass e (st0 st1 : S),
             authenticate (Auth P config loaded) user pass st0 <> (Throw e, st1)).
  { intros user pass e st0 st1 H.
    destruct (authenticate_next_answers (static_plugin P config :: loaded) user pass st0)
      as [r Hr].
    change (authenticate_next ((static_plugin P config :: loaded) ++ [deny_all_plugin])
              user pass st0)
      with (authenticate (Auth P config loaded) user pass st0) in Hr.
    rewrite H in Hr. discriminate Hr. }
  split; [|split].
  - destruct (basic_middleware_shape P (Auth P config loaded) req st)
      as [(r & err & -> & _ & _ & Hsome)|(user & pass & e & st1 & H & _)];
      [|destruct (Hauth _ _ _ _ _ H)].
    unfold basic_next. destruct err as [err|]; [|eauto].
    destruct (Hsome (ltac:(eauto))) as [p Hp]. cbn. rewrite Hp. eauto.
  - destruct (cookie_middleware_shape P (Auth P config loaded) req st)
      as [(r & err & -> & _)|(user & pass & e & st1 & H & _)];
      [|destruct (Hauth _ _ _ _ _ H)].
    unfold cookie_next. eauto.
  - destruct (bearer_middleware_shape P self req now) as (r & err & -> & _).
    unfold bearer_next. eauto.
Qed.

(** ** Tokens *)

(** X13.  A token that decodes is all the Bearer middleware needs: on a
    request without a named principal it attaches the principal built
    from the payload alone, with the token recorded on it, and calls the
    continuation without an error; no provider is asked, so this holds
    over every facade with that secret.  The groups are those of the
    payload followed by the five markers; a payload without [g] gives
    the five markers alone and an undefined [real_groups]; a payload
    without [u] gives a principal without a name. *)
Theorem bearer_attaches_payload (P : platform) (S : Type) (self : Self.t S) (req : Request)
    (now : Z) (header tok : string) (o : Payload.payload) :
  has_named_user req = false ->
  authorization req = Some header ->
  JsString.split " " header = ["Bearer"; tok] ->
  decode_token P (Self.secret self) tok None now = Normal o ->
  exists user,
    bearer_middleware P self req now
    = Normal (resume (set_remote_user user (pause req)), None)
    /\ name user = Payload.u o
    /\ groups user = default [] (Payload.g o) ++ authenticated_markers
    /\ real_groups user = payload_field_g o
    /\ token user = Some tok
    /\ error user = None.
Proof.
  intros Hnamed Hheader Hsplit Hdecode.
  exists (set_token tok (authenticatedUser (Payload.u o) (payload_field_g o))).
  split.
  - unfold bearer_middleware.
    change (has_named_user (pause req)) with (has_named_user req). rewrite Hnamed.
    change (authorization (set_remote_user buildAnonymousUser (pause req)))
      with (authorization req).
    rewrite Hheader, Hsplit. cbn. rewrite Hdecode. reflexivity.
  - unfold payload_field_g. destruct (Payload.g o); repeat split.
Qed.

(** A token for carol without groups, ten seconds old. *)
Lemma bearer_attaches_payload_witness :
  let tok := issue_token TestDouble.runtime "s3cret"
               (authenticatedUser (Some "carol") (JArray [])) 1700000000123 in
  exists user,
    bearer_middleware TestDouble.runtime (TestDouble.self_with [])
      (Fixtures.fresh (Some ("Bearer " ++ tok)%string) None) 1700000010123
    = Normal (resume (set_remote_user user
                        (pause (Fixtures.fresh (Some ("Bearer " ++ tok)%string) None))), None)
    /\ name user = Some "carol"
    /\ groups user = authenticated_markers
    /\ real_groups user = JUndefined.
Proof.
  intros tok.
  destruct (bearer_attaches_payload TestDouble.runtime unit (TestDouble.self_with [])
              (Fixtures.fresh (Some ("Bearer " ++ tok)%string) None) 1700000010123
              ("Bearer " ++ tok)%string tok TestDouble.carol_alone)
    as (user & Hrun & Hname & Hgroups & Hreal & _).
  - reflexivity.
  - reflexivity.
  - vm_compute. reflexivity.
  - vm_compute. reflexivity.
  - exists user. auto.
Defined.

(** X14.  [decode_token] returns a payload only for a buffer longer than
    32 bytes whose last 32 bytes have the SHA-512 digest of the MAC,
    under the secret, of the bytes before them, and the payload is what
    those bytes parse to: nothing is returned that was not signed. *)
Theorem decode_token_sound (P : platform) (secret str : string) (expire_time : option Z)
    (now : Z) (o : Payload.payload) :
  decode_token P secret str expire_time now = Normal o ->
  let buf := base64_decode P str in
  let data := take (length buf - 32) buf in
  (32 < length buf)%nat
  /\ sha512_hex P (drop (length buf - 32) buf) = sha512_hex P (hmac_sha256 P secret data)
  /\ jju_parse P (utf8_decode P data) = Normal o.
Proof.
  intros H buf data. unfold decode_token in H. fold buf in H. fold data in H.
  destruct (Nat.leb_spec (length buf) 32) as [|Hlen]; [discriminate H|].
  destruct (String.eqb_spec (sha512_hex P (drop (length buf - 32) buf))
              (sha512_hex P (hmac_sha256 P secret data))) as [Hmac|]; [|discriminate H].
  cbn in H. destruct (jju_parse P (utf8_decode P data)) as [o'|e]; [|discriminate H].
  cbn in H.
  destruct (Z.abs (Payload.t o' - now_seconds now) >? expire_or_default expire_time)%Z;
    [discriminate H|].
  injection H as ->. auto.
Qed.

(** The token of the stand-in round trip is a payload and its MAC. *)
Lemma decode_token_sound_witness :
  let str := issue_token TestDouble.runtime "s3cret"
               (authenticatedUser (Some "carol") (JArray ["dev"])) 1700000000123 in
  let buf := base64_decode TestDouble.runtime str in
  (32 < length buf)%nat
  /\ jju_parse TestDouble.runtime
       (utf8_decode TestDouble.runtime (take (length buf - 32) buf))
     = Normal TestDouble.carol_dev.
Proof.
  intros str buf.
  destruct (decode_token_sound TestDouble.runtime "s3cret" str None 1700000010000
              TestDouble.carol_dev) as (Hlen & _ & Hparse).
  - vm_compute. reflexivity.
  - split; [exact Hlen|exact Hparse].
Defined.

(** X15.  The two integrity errors of [decode_token], in their order.  A
    string that decodes to 32 bytes or fewer (the empty string too) is
    the 401 error "invalid token", whatever the secret and the time.  A
    longer one whose last 32 bytes do not match the MAC of the rest is
    the 401 error "bad signature", before the payload is parsed and
    before its age is looked at. *)
Theorem decode_token_rejects (P : platform) (secret str : string) (expire_time : option Z)
    (now : Z) :
  let buf := base64_decode P str in
  ((length buf <= 32)%nat ->
   decode_token P secret str expire_time now = Throw (HttpError 401 "invalid token"))
  /\ ((32 < length buf)%nat ->
      sha512_hex P (drop (length buf - 32) buf)
      <> sha512_hex P (hmac_sha256 P secret (take (length buf - 32) buf)) ->
      decode_token P secret str expire_time now = Throw (HttpError 401 "bad signature")).
Proof.
  intros buf. unfold decode_token. fold buf. split.
  - intros Hlen. apply Nat.leb_le in Hlen. rewrite Hlen. reflexivity.
  - intros Hlen Hmac. apply Nat.leb_gt in Hlen. apply String.eqb_neq in Hmac.
    rewrite Hlen, Hmac. reflexivity.
Qed.

(** A MAC alone, without a payload, is too short; the token of carol with
    its last byte changed has a bad signature. *)
Lemma decode_token_rejects_witness :
  decode_token TestDouble.runtime "s3cret"
    (base64_encode TestDouble.runtime (hmac_sha256 TestDouble.runtime "s3cret" []))
    None 1700000000000 = Throw (HttpError 401 "invalid token")
  /\ decode_token TestDouble.runtime "s3cret"
       (base64_encode TestDouble.runtime
          (utf8_encode TestDouble.runtime "{u:'carol',t:1700000000}"
           ++ replicate 32 Byte.x00))
       None 1700000000000 = Throw (HttpError 401 "bad signature").
Proof.
  split.
  - apply (decode_token_rejects TestDouble.runtime "s3cret" _ None 1700000000000).
    vm_compute. lia.
  - refine (proj2 (decode_token_rejects TestDouble.runtime "s3cret" _ None 1700000000000)
              _ _).
    + vm_compute. lia.
    + vm_compute. discriminate.
Defined.

(** X16.  A token does not pass under another secret: when the MACs of
    the serialised payload under the two secrets have different SHA-512
    digests, decoding with the second secret a token issued with the
    first is the 401 error "bad signature", however fresh the token is
    (the runtime being as for the round trip: base64 decodes the token
    back, the MAC has 32 bytes, the payload serialises to at least one
    byte). *)
Theorem token_of_another_secret (P : platform) (secret secret' : string) (user : Principal)
    (now now' : Z) (expire_time : option Z) :
  let data := utf8_encode P (jju_stringify P (token_payload user now)) in
  let mac := hmac_sha256 P secret data in
  base64_decode P (base64_encode P (data ++ mac)) = data ++ mac ->
  length mac = 32%nat ->
  data <> [] ->
  sha512_hex P mac <> sha512_hex P (hmac_sha256 P secret' data) ->
  decode_token P secret' (issue_token P secret user now) expire_time now'
  = Throw (HttpError 401 "bad signature").
Proof.
  intros data mac Hb64 Hmac Hdata Hdiff.
  destruct (token_buffer_split data mac Hmac) as [Htake Hdrop].
  apply decode_token_rejects; unfold issue_token; fold data; fold mac; rewrite Hb64.
  - rewrite length_app, Hmac. destruct data; [contradiction|cbn; lia].
  - rewrite Htake, Hdrop. exact Hdiff.
Qed.

Lemma token_of_another_secret_witness :
  decode_token TestDouble.runtime "other"
    (issue_token TestDouble.runtime "s3cret"
       (authenticatedUser (Some "carol") (JArray ["dev"])) 1700000000123)
    None 1700000000123 = Throw (HttpError 401 "bad signature").
Proof.
  apply (token_of_another_secret TestDouble.runtime "s3cret" "other").
  - vm_compute. reflexivity.
  - vm_compute. reflexivity.
  - discriminate.
  - vm_compute. discriminate.
Defined.

(** X17.  Issuing and logging in compose.  With the runtime as for the
    round trip, a request without a named principal whose header is
    Bearer and the token issued for a principal, presented within the
    window, gets a principal with the same name, with the token
    recorded, and with the five authenticated markers after its real
    groups.  A non-empty [real_groups] comes back as it was, so issuing
    a token for the new principal gives the same payload groups again;
    an empty one comes back undefined. *)
Theorem issued_token_logs_in (P : platform) (S : Type) (self : Self.t S) (user : Principal)
    (req : Request) (header : string) (now now' : Z) :
  let o := token_payload user now in
  let data := utf8_encode P (jju_stringify P o) in
  let mac := hmac_sha256 P (Self.secret self) data in
  let tok := issue_token P (Self.secret self) user now in
  base64_decode P (base64_encode P (data ++ mac)) = data ++ mac ->
  jju_parse P (utf8_decode P data) = Normal o ->
  length mac = 32%nat ->
  data <> [] ->
  (Z.abs (now_seconds now - now_seconds now') <= 86400)%Z ->
  has_named_user req = false ->
  authorization req = Some header ->
  JsString.split " " header = ["Bearer"; tok] ->
  exists user',
    bearer_middleware P self req now'
    = Normal (resume (set_remote_user user' (pause req)), None)
    /\ name user' = name user
    /\ token user' = Some tok
    /\ groups user' = default [] (payload_groups (real_groups user)) ++ authenticated_markers
    /\ payload_groups (real_groups user') = payload_groups (real_groups user)
    /\ (forall group l, real_groups user = JArray (group :: l) ->
        real_groups user' = real_groups user)
    /\ (real_groups user = JArray [] -> real_groups user' = JUndefined).
Proof.
  intros o data mac tok Hb64 Hparse Hmac Hdata Hwindow Hnamed Hheader Hsplit.
  destruct (token_buffer_split data mac Hmac) as [Htake Hdrop].
  assert (Hdecode : decode_token P (Self.secret self) tok None now' = Normal o).
  { rewrite (decode_token_checked P (Self.secret self) tok None now' o).
    - replace (Payload.t o) with (now_seconds now) by reflexivity.
      destruct (Z.gtb_spec (Z.abs (now_seconds now - now_seconds now'))
                  (expire_or_default None)); [cbn in *; lia|reflexivity].
    - unfold tok, issue_token. fold o data mac. rewrite Hb64, length_app, Hmac.
      destruct data; [contradiction|cbn; lia].
    - unfold tok, issue_token. fold o data mac. rewrite Hb64, Htake, Hdrop. reflexivity.
    - unfold tok, issue_token. fold o data mac. rewrite Hb64, Htake. exact Hparse. }
  exists (set_token tok (authenticatedUser (Payload.u o) (payload_field_g o))).
  split.
  - unfold bearer_middleware.
    change (has_named_user (pause req)) with (has_named_user req). rewrite Hnamed.
    change (authorization (set_remote_user buildAnonymousUser (pause req)))
      with (authorization req).
    rewrite Hheader, Hsplit. cbn. rewrite Hdecode. reflexivity.
  - unfold payload_field_g. cbn.
    destruct (real_groups user) as [| | |[|group l]]; cbn; repeat split;
      try discriminate; intros; congruence.
Qed.

Lemma issued_token_logs_in_witness :
  let user := authenticatedUser (Some "carol") (JArray ["dev"]) in
  let tok := issue_token TestDouble.runtime "s3cret" user 1700000000123 in
  exists user',
    bearer_middleware TestDouble.runtime (TestDouble.self_with [])
      (Fixtures.fresh (Some ("Bearer " ++ tok)%string) None) 1700000010123
    = Normal (resume (set_remote_user user'
                (pause (Fixtures.fresh (Some ("Bearer " ++ tok)%string) None))), None)
    /\ name user' = Some "carol"
    /\ groups user' = groups user
    /\ real_groups user' = real_groups user.
Proof.
  intros user tok.
  destruct (issued_token_logs_in TestDouble.runtime unit (TestDouble.self_with []) user
              (Fixtures.fresh (Some ("Bearer " ++ tok)%string) None)
              ("Bearer " ++ tok)%string 1700000000123 1700000010123)
    as (user' & Hrun & Hname & _ & Hgroups & _ & Hreal & _).
  - vm_compute. reflexivity.
  - vm_compute. reflexivity.
  - vm_compute. reflexivity.
  - discriminate.
  - vm_compute. discriminate.
  - reflexivity.
  - reflexivity.
  - vm_compute. reflexivity.
  - exists user'. split; [exact Hrun|]. split; [exact Hname|].
    split; [exact Hgroups|]. exact (Hreal "dev" [] eq_refl).
Defined.

(** ** The clock *)

(** X18.  [~~(Date.now()/1000)] is the number of whole seconds as long as
    it fits 31 bits, that is for clock readings before 2038-01-19
    03:14:08 UTC; it always lies between -2^31 and 2^31 - 1; from that
    instant until 2^32 seconds after the epoch it is the number of
    seconds less 2^32, a negative number; and it repeats every 2^32
    seconds, so at 2^32 seconds it is 0 again. *)
Theorem now_seconds_range (now : Z) :
  ((0 <= now < 2 ^ 31 * 1000 -> now_seconds now = now / 1000)
   /\ (- 2 ^ 31 <= now_seconds now < 2 ^ 31)
   /\ (2 ^ 31 * 1000 <= now < 2 ^ 32 * 1000 ->
       now_seconds now = now / 1000 - 2 ^ 32 /\ now_seconds now < 0)
   /\ (0 <= now -> now_seconds (now + 2 ^ 32 * 1000) = now_seconds now))%Z.
Proof.
  unfold now_seconds, to_int32.
  assert (Hq : forall x, (0 <= x -> x ÷ 1000 = x / 1000)%Z).
  { intros x H. apply Z.quot_div_nonneg; lia. }
  split; [|split; [|split]].
  - intros [H0 H1]. rewrite (Hq now H0).
    assert (0 <= now / 1000 < 2 ^ 31)%Z.
    { split; [apply Z.div_pos; lia|apply Z.div_lt_upper_bound; lia]. }
    rewrite Z.mod_small; lia.
  - pose proof (Z.mod_pos_bound (now ÷ 1000 + 2 ^ 31) (2 ^ 32) ltac:(lia)). lia.
  - intros [H0 H1]. rewrite (Hq now ltac:(lia)).
    assert (2 ^ 31 <= now / 1000 < 2 ^ 32)%Z.
    { split; [apply Z.div_le_lower_bound; lia|apply Z.div_lt_upper_bound; lia]. }
    replace (now / 1000 + 2 ^ 31)%Z with (now / 1000 - 2 ^ 31 + 1 * 2 ^ 32)%Z by lia.
    rewrite Z.mod_add by lia. rewrite Z.mod_small; lia.
  - intros H0. rewrite (Hq now H0), (Hq (now + 2 ^ 32 * 1000)%Z ltac:(lia)).
    rewrite Z.div_add by lia.
    replace (now / 1000 + 2 ^ 32 + 2 ^ 31)%Z with (now / 1000 + 2 ^ 31 + 1 * 2 ^ 32)%Z by lia.
    rewrite Z.mod_add by lia. reflexivity.
Qed.

(** The last second before the wrap, the first after it, and the first
    of the next round. *)
Lemma now_seconds_range_witness :
  now_seconds 2147483647999 = 2147483647%Z
  /\ now_seconds 2147483648000 = (-2147483648)%Z
  /\ now_seconds 4294967296000 = 0%Z.
Proof.
  split; [|split].
  - rewrite (proj1 (now_seconds_range 2147483647999)); [reflexivity|lia].
  - destruct (proj1 (proj2 (proj2 (now_seconds_range 2147483648000)))) as [-> _];
      [lia|reflexivity].
  - change 4294967296000%Z with (0 + 2 ^ 32 * 1000)%Z.
    rewrite (proj2 (proj2 (proj2 (now_seconds_range 0)))); [reflexivity|lia].
Defined.

(** ** The principals of a login *)

Lemma authenticate_next_accepted {S} (plugins : list (Plugin.t S)) user password st p st' :
  authenticate_next plugins user password st = (Normal (CbOk p), st') ->
  exists l, p = authenticatedUser (Some user) (JArray l)
            /\ accepted_groups (JArray l) = true.
Proof.
  revert st. induction plugins as [|q plugins IH]; intros st; cbn; [discriminate|].
  destruct (Plugin.authenticate q) as [f|]; [|apply IH].
  destruct (f user password st) as [[[err|] groups] st1]; [discriminate|].
  destruct groups as [| | |l]; cbn; try apply IH.
  destruct (ToNumber.is_zero (JsString.join "," l)) eqn:Hz; cbn; [apply IH|].
  intros H. injection H as <- _. exists l. split; [reflexivity|].
  unfold accepted_groups. rewrite Hz. reflexivity.
Qed.

Lemma add_user_next_authenticates {S} (self : Self.t S) (plugins : list (Plugin.t S))
    user password st p st' :
  add_user_next self plugins user password st = (Normal (CbOk p), st') ->
  exists st1, authenticate self user password st1 = (Normal (CbOk p), st').
Proof.
  revert st. induction plugins as [|q plugins IH]; intros st; cbn; [discriminate|].
  destruct (adduser_method q) as [f|]; [|apply IH].
  destruct (f user password st) as [[[err|] ok] st1]; [discriminate|].
  destruct (truthy_ok ok); [eauto|apply IH].
Qed.

(** X19.  Over any chain, a principal that [authenticate] or [add_user]
    answers with was built for the very user asked about, from a
    non-empty group list that a provider gave: its name is that user,
    its groups are that list followed by the five markers (so it is in
    $all and $authenticated), and it carries no error and no token.  A
    registration never answers with a principal that [authenticate] did
    not build. *)
Theorem login_principal {S : Type} (self : Self.t S) (user password : string) (st st' : S)
    (p : Principal) :
  authenticate self user password st = (Normal (CbOk p), st')
  \/ add_user self user password st = (Normal (CbOk p), st') ->
  exists l,
    l <> []
    /\ name p = Some user
    /\ real_groups p = JArray l
    /\ groups p = l ++ authenticated_markers
    /\ "$authenticated" ∈ groups p
    /\ error p = None /\ token p = None.
Proof.
  intros H.
  assert (Hauth : exists st1, authenticate self user password st1 = (Normal (CbOk p), st')).
  { destruct H as [H|H]; [eauto|]. exact (add_user_next_authenticates _ _ _ _ _ _ _ H). }
  destruct Hauth as [st1 Hauth].
  apply authenticate_next_accepted in Hauth as (l & -> & Hacc).
  exists l. repeat split.
  - intros ->. discriminate Hacc.
  - cbn. apply elem_of_app. right. unfold authenticated_markers. repeat constructor.
Qed.

(** Registering dave with a provider that keeps its users logs him in. *)
Lemma login_principal_witness :
  let self := Auth TestDouble.runtime TestDouble.config [Fixtures.registry] in
  exists p,
    add_user self "dave" "pw" [] = (Normal (CbOk p), [("dave", "pw")])
    /\ name p = Some "dave"
    /\ groups p = "users" :: authenticated_markers.
Proof.
  intros self.
  exists (authenticatedUser (Some "dave") (JArray ["users"])).
  assert (Hrun : add_user self "dave" "pw" []
                 = (Normal (CbOk (authenticatedUser (Some "dave") (JArray ["users"]))),
                    [("dave", "pw")])) by (vm_compute; reflexivity).
  split; [exact Hrun|].
  destruct (login_principal self "dave" "pw" [] [("dave", "pw")] _ (or_intror Hrun))
    as (l & _ & Hname & Hreal & Hgroups & _).
  split; [exact Hname|]. rewrite Hgroups. injection Hreal as <-. reflexivity.
Defined.

(** ** The policy of the deny-all provider *)

Lemma allow_action_ok {S} (action : Action) (user : Principal) (pkg : Package) (st : S) :
  (allow_action action user pkg st).1.2
  = if acl_matches user (acl action pkg) then Some true else None.
Proof.
  unfold allow_action. destruct (acl_matches user (acl action pkg)); [reflexivity|].
  destruct (name user) as [[|c n]|]; reflexivity.
Qed.

(** X20.  The verdict of [allow_action] depends only on which names the
    list of the package and the groups of the principal contain: order
    and repetition in either do not matter.  A package with an empty
    list for the action, and a principal without groups, are always
    refused with a 403 error. *)
Theorem acl_is_a_set {S : Type} (action : Action) (user user' : Principal)
    (pkg pkg' : Package) (st : S) :
  ((forall group, group ∈ acl action pkg <-> group ∈ acl action pkg') ->
   (forall group, group ∈ groups user <-> group ∈ groups user') ->
   (allow_action action user pkg st).1.2 = (allow_action action user' pkg' st).1.2)
  /\ (acl action pkg = [] \/ groups user = [] ->
      exists msg, allow_action action user pkg st = ((Some (HttpError 403 msg), None), st)).
Proof.
  split.
  - intros Hacl Hgroups. rewrite !allow_action_ok.
    assert (H : intersects (acl action pkg) user <-> intersects (acl action pkg') user').
    { unfold intersects. split; intros (group & H1 & H2); exists group.
      - split; [apply Hacl|apply Hgroups]; assumption.
      - split; [apply Hacl|apply Hgroups]; assumption. }
    rewrite <- !acl_matches_intersects in H.
    destruct (acl_matches user (acl action pkg)), (acl_matches user' (acl action pkg'));
      try reflexivity.
    + destruct H as [H _]. discriminate (H eq_refl).
    + destruct H as [_ H]. discriminate (H eq_refl).
  - intros Hempty.
    assert (H : ~ intersects (acl action pkg) user).
    { intros (group & H1 & H2).
      destruct Hempty as [He|He]; [rewrite He in H1; inversion H1|rewrite He in H2; inversion H2]. }
    rewrite (allow_action_refused action user pkg st H).
    destruct (name user) as [[|c n]|]; eexists; reflexivity.
Qed.

(** A list that names dev twice after alice is the list alice, dev; and
    nobody gets into a package with an empty list. *)
Lemma acl_is_a_set_witness :
  let dev := authenticatedUser (Some "carol") (JArray ["dev"]) in
  let pkg l := {| pkg_name := "p"; pkg_access := l; pkg_publish := [] |} in
  (allow_action access dev (pkg ["dev"; "alice"; "dev"]) tt).1.2
  = (allow_action access dev (pkg ["alice"; "dev"]) tt).1.2
  /\ exists msg, allow_action publish dev (pkg ["dev"]) tt
                 = ((Some (HttpError 403 msg), None), tt).
Proof.
  intros dev pkg. split.
  - apply (acl_is_a_set access dev dev (pkg ["dev"; "alice"; "dev"]) (pkg ["alice"; "dev"]) tt).
    + intros group. cbn. rewrite !elem_of_cons, elem_of_nil. tauto.
    + reflexivity.
  - apply (acl_is_a_set publish dev dev (pkg ["dev"]) (pkg ["dev"]) tt). left. reflexivity.
Defined.

(** X21.  The two tiers.  A package that lists one of the five
    authenticated markers for an action is open, at the deny-all
    provider, to every principal built by [authenticatedUser], whatever
    its name and real groups.  A package whose list for the action has
    none of the seven anonymous groups refuses the anonymous principal
    with the 403 error for unregistered users; a list with only
    $authenticated is such a list. *)
Theorem policy_tiers {S : Type} (action : Action) (pkg : Package) (st : S) :
  (forall marker n g,
      marker ∈ authenticated_markers ->
      marker ∈ acl action pkg ->
      allow_action action (authenticatedUser n g) pkg st = ((None, Some true), st))
  /\ ((forall group, group ∈ acl action pkg -> group ∉ groups buildAnonymousUser) ->
      allow_action action buildAnonymousUser pkg st
      = ((Some (not_allowed_unregistered action (pkg_name pkg)), None), st))
  /\ (acl action pkg = ["$authenticated"] ->
      allow_action action buildAnonymousUser pkg st
      = ((Some (not_allowed_unregistered action (pkg_name pkg)), None), st)).
Proof.
  assert (Hanon : (forall group, group ∈ acl action pkg -> group ∉ groups buildAnonymousUser) ->
            allow_action action buildAnonymousUser pkg st
            = ((Some (not_allowed_unregistered action (pkg_name pkg)), None), st)).
  { intros Hnone.
    rewrite (allow_action_refused action buildAnonymousUser pkg st); [reflexivity|].
    intros (group & H1 & H2). exact (Hnone group H1 H2). }
  split; [|split; [exact Hanon|]].
  - intros marker n g Hm Hacl. apply allow_action_allowed.
    exists marker. split; [exact Hacl|]. cbn. apply elem_of_app. right. exact Hm.
  - intros Hacl. apply Hanon. intros group. rewrite Hacl.
    intros Hin. apply list_elem_of_singleton in Hin as ->.
    intros Hbad. apply list_elem_of_In in Hbad. cbn in Hbad.
    repeat (destruct Hbad as [Hbad|Hbad]; [discriminate Hbad|]). exact Hbad.
Qed.

Lemma policy_tiers_witness :
  let pkg := package_of (TestDouble.self_with []) "public" in
  allow_action publish TestDouble.mallory pkg tt = ((None, Some true), tt)
  /\ allow_action publish buildAnonymousUser pkg tt
     = ((Some (HttpError 403
          "unregistered users are not allowed to publish package public"), None), tt).
Proof.
  intros pkg.
  destruct (policy_tiers publish pkg tt) as (Hauth & _ & Hanon).
  split.
  - apply (Hauth "$authenticated"); repeat constructor.
  - apply Hanon. reflexivity.
Defined.
